(** * Spans of [trulens_eval.trace.span]

    A shallow embedding of the span taxonomy, of the typed attribute
    accessor [AttributeProperty], of the parent link management of [Span]
    and of the [SpanType] dispatch, together with the properties the
    specification states about them.

    Python dictionaries whose iteration order is observed (the links of a
    span) are association lists in insertion order; the other dictionaries
    (attribute stores) are finite maps. A method that mutates its receiver
    returns the receiver's new state next to its outcome, so that the state
    left behind by a raised exception is part of the model. *)

From stdpp Require Import base strings gmap list fin_maps.
From Stdlib Require Import ZArith.

Open Scope string_scope.

#[local] Set Warnings "-register-all".

(** ** The class hierarchy *)

(** The classes deriving from [Span], in the order of the module. *)
Inductive span_class :=
| Span | SpanUntyped | TransSpanRecord | SpanMethodCall
| TransSpanRecordAppCall | SpanRoot | SpanRetriever | SpanReranker | SpanLLM
| SpanMemory | SpanEmbedding | SpanTool | SpanAgent | SpanTask | SpanOther.

#[global] Instance span_class_eq_dec : EqDecision span_class.
Proof. solve_decision. Defined.

(** [cls.__name__] *)
Definition __name__ (cls : span_class) : string :=
  match cls with
  | Span => "Span"
  | SpanUntyped => "SpanUntyped"
  | TransSpanRecord => "TransSpanRecord"
  | SpanMethodCall => "SpanMethodCall"
  | TransSpanRecordAppCall => "TransSpanRecordAppCall"
  | SpanRoot => "SpanRoot"
  | SpanRetriever => "SpanRetriever"
  | SpanReranker => "SpanReranker"
  | SpanLLM => "SpanLLM"
  | SpanMemory => "SpanMemory"
  | SpanEmbedding => "SpanEmbedding"
  | SpanTool => "SpanTool"
  | SpanAgent => "SpanAgent"
  | SpanTask => "SpanTask"
  | SpanOther => "SpanOther"
  end.

(** [SpanTyped = TransSpanRecordAppCall] *)
Definition SpanTyped : span_class := TransSpanRecordAppCall.

(** The base named in each [class] statement; [Span] derives from
    [mod_trace.OTSpan], which is outside the hierarchy modelled here. *)
Definition base (cls : span_class) : option span_class :=
  match cls with
  | Span => None
  | SpanUntyped => Some Span
  | TransSpanRecord => Some Span
  | SpanMethodCall => Some TransSpanRecord
  | TransSpanRecordAppCall => Some SpanMethodCall
  | SpanRoot => Some TransSpanRecord
  | SpanRetriever | SpanReranker | SpanLLM | SpanMemory | SpanEmbedding
  | SpanTool | SpanAgent | SpanTask | SpanOther => Some SpanTyped
  end.

(** The members of the enumeration [SpanType]. *)
Inductive SpanType :=
| UNTYPED | ROOT | RETRIEVER | RERANKER | LLM | MEMORY | EMBEDDING | TOOL
| AGENT | TASK | OTHER.

#[global] Instance SpanType_eq_dec : EqDecision SpanType.
Proof. solve_decision. Defined.

(** [member.value], as assigned in the body of the enumeration. *)
Definition value (self : SpanType) : string :=
  match self with
  | UNTYPED => __name__ SpanUntyped
  | ROOT => __name__ SpanRoot
  | RETRIEVER => __name__ SpanRetriever
  | RERANKER => __name__ SpanReranker
  | LLM => __name__ SpanLLM
  | MEMORY => __name__ SpanMemory
  | EMBEDDING => __name__ SpanEmbedding
  | TOOL => __name__ SpanTool
  | AGENT => __name__ SpanAgent
  | TASK => __name__ SpanTask
  | OTHER => __name__ SpanOther
  end.

(** ** Values, type annotations, exceptions *)

(** The Python values that reach an attribute store. A float is kept as
    its 64 bit pattern: no arithmetic is ever done on it here. *)
Inductive pyval :=
| VNone
| VBool (b : bool)
| VInt (n : Z)
| VFloat (bits : Z)
| VStr (s : string)
| VList (xs : list pyval)
| VDict (kvs : list (string * pyval))
| VEnum (m : SpanType).

(** The type annotations given to [attribute_property] in the module, and
    the classes [type(...)] can return for a value. *)
Inductive pytype :=
| TNoneType | Tbool | Tint | Tfloat | Tstr | Tlist | Tdict
| TAny | TJSON
| TList (t : pytype)
| TDict (k v : pytype)
| TOptional (t : pytype)
| TSpanType.

(** [type(v)] *)
Definition type (v : pyval) : pytype :=
  match v with
  | VNone => TNoneType
  | VBool _ => Tbool
  | VInt _ => Tint
  | VFloat _ => Tfloat
  | VStr _ => Tstr
  | VList _ => Tlist
  | VDict _ => Tdict
  | VEnum _ => TSpanType
  end.

(** [v is None] *)
Definition is_None (v : pyval) : bool :=
  match v with VNone => true | _ => false end.

(** [len(v)], [None] for a value without a length. *)
Definition len (v : pyval) : option nat :=
  match v with
  | VStr s => Some (String.length s)
  | VList xs => Some (List.length xs)
  | VDict kvs => Some (List.length kvs)
  | _ => None
  end.

(** The exceptions raised in the module: pydantic's [ValidationError] (the
    specification calls it TypeMismatch), [KeyError] (KeyNotFound) and
    [ValueError] (UnknownSpanType). *)
Inductive exn :=
| ValidationError (t : pytype) (v : pyval)
| KeyError
| ValueError (msg : string).

Inductive outcome (A : Type) :=
| Return (a : A)
| Raise (e : exn).
Arguments Return {A} a.
Arguments Raise {A} e.

(** ** Dictionaries in insertion order *)

Module PyDict.
Section ordered.
Context {K V : Type} `{EqDecision K}.

(** [d.items()] *)
Definition items (d : list (K * V)) : list (K * V) := d.

(** [d.get(k)] *)
Fixpoint get (k : K) (d : list (K * V)) : option V :=
  match d with
  | [] => None
  | (k', v) :: d' => if decide (k = k') then Some v else get k d'
  end.

(** [d[k] = v]: an existing key keeps its position. *)
Fixpoint setitem (k : K) (v : V) (d : list (K * V)) : list (K * V) :=
  match d with
  | [] => [(k, v)]
  | (k', v') :: d' =>
      if decide (k = k') then (k', v) :: d' else (k', v') :: setitem k v d'
  end.

(** The entries left by [del d[k]]; the keys of a dictionary are
    unique, so at most one entry goes. *)
Definition remove (k : K) (d : list (K * V)) : list (K * V) :=
  filter (λ kv, kv.1 ≠ k) d.

(** [del d[k]] *)
Definition delitem (k : K) (d : list (K * V)) : outcome (list (K * V)) :=
  match get k d with
  | Some _ => Return (remove k d)
  | None => Raise KeyError
  end.
End ordered.
End PyDict.

(** ** Objects *)

Module SpanContext.
(** The two identifiers of an [ot_span.SpanContext] the module reads. *)
Record t := mk { trace_id : Z; span_id : Z }.

#[global] Instance eq_dec : EqDecision t.
Proof. solve_decision. Defined.
End SpanContext.

Module DictNamespace.
(** The dictionary a namespace writes through to. [SpanAttributes] is a
    reference to the [attributes] dictionary of the span holding the
    namespace (the two names are aliases of one dictionary);
    [Detached d] is a dictionary nothing else refers to. *)
Inductive parent_ref :=
| SpanAttributes
| Detached (d : gmap string pyval).

Record t := mk {
  parent : parent_ref;
  namespace : string;
  entries : gmap string pyval
}.
End DictNamespace.

Module Span.
(** The state of a span object: its class and the fields of [OTSpan]
    the module uses, and [attributes_metadata]. *)
Record t := mk {
  __class__ : span_class;
  context : SpanContext.t;
  start_timestamp : Z;
  end_timestamp : option Z;
  attributes : gmap string pyval;
  links : list (SpanContext.t * gmap string pyval);
  attributes_metadata : DictNamespace.t
}.

Definition with_attributes (a : gmap string pyval) (s : t) : t :=
  mk (__class__ s) (context s) (start_timestamp s) (end_timestamp s)
     a (links s) (attributes_metadata s).

Definition with_links (l : list (SpanContext.t * gmap string pyval))
    (s : t) : t :=
  mk (__class__ s) (context s) (start_timestamp s) (end_timestamp s)
     (attributes s) l (attributes_metadata s).

Definition with_attributes_metadata (m : DictNamespace.t) (s : t) : t :=
  mk (__class__ s) (context s) (start_timestamp s) (end_timestamp s)
     (attributes s) (links s) m.
End Span.

Module AttributeProperty.
(** The fields set by [AttributeProperty.__init__]. A factory is a
    callable without arguments. [tadapter] stands for
    [TypeAdapter(typ)]; [None] also stands for the attribute not being
    assigned yet, which no method observes: [init_forward] assigns it
    before any read. *)
Record t := mk {
  name : string;
  typ : option pytype;
  typ_factory : option (unit → pytype);
  default : pyval;
  default_factory : option (unit → pyval);
  forward_initialized : bool;
  tadapter : option pytype
}.

Definition with_forward_initialized (b : bool) (p : t) : t :=
  mk (name p) (typ p) (typ_factory p) (default p) (default_factory p)
     b (tadapter p).

Definition with_typ (ty : option pytype) (p : t) : t :=
  mk (name p) ty (typ_factory p) (default p) (default_factory p)
     (forward_initialized p) (tadapter p).

Definition with_default (d : pyval) (p : t) : t :=
  mk (name p) (typ p) (typ_factory p) d (default_factory p)
     (forward_initialized p) (tadapter p).

Definition with_tadapter (a : option pytype) (p : t) : t :=
  mk (name p) (typ p) (typ_factory p) (default p) (default_factory p)
     (forward_initialized p) a.

(** [AttributeProperty.__init__] *)
Definition __init__ (name : string) (typ : option pytype)
    (typ_factory : option (unit → pytype)) (default : pyval)
    (default_factory : option (unit → pyval)) : t :=
  mk name typ typ_factory default default_factory false None.
End AttributeProperty.

Module Kwargs.
(** The keyword arguments of a span constructor, defaults filled in.
    [Span.__init__] replaces [attributes_metadata] before it is used. *)
Record t := mk {
  context : SpanContext.t;
  start_timestamp : Z;
  end_timestamp : option Z;
  attributes : gmap string pyval;
  links : list (SpanContext.t * gmap string pyval);
  attributes_metadata : DictNamespace.t
}.

Definition with_attributes_metadata (m : DictNamespace.t) (k : t) : t :=
  mk (context k) (start_timestamp k) (end_timestamp k) (attributes k)
     (links k) m.
End Kwargs.

(** ** The module *)

(** What the module takes from outside. *)
Class Environment := {
  (** [OTSpan._vendor] with its separator: the fixed prefix of the keys
      the module writes. *)
  _vendor : string;
  (** The separator a [DictNamespace] puts between its namespace and a
      key. *)
  namespace_sep : string;
  (** [TypeAdapter(t).validate_python(v)] of pydantic: [true] when [v] is
      accepted, [false] when [ValidationError] is raised. *)
  validate_python : pytype → pyval → bool
}.

Section span.
Context `{!Environment}.

(** *** Collaborators outside the module *)

(** Modelled from the spec: [OTSpan.vendor_attr] is not part of the
    sources at hand. "Every key written by a typed accessor is namespaced
    with a fixed vendor prefix." *)
Definition vendor_attr (name : string) : string := _vendor +:+ name.

(** Modelled from the spec: [OTSpan.set_attribute] is not part of the
    sources at hand. It is the [set(key, value)] of the attribute store. *)
Definition set_attribute (self : Span.t) (key : string) (v : pyval) : Span.t :=
  Span.with_attributes (<[key := v]> (Span.attributes self)) self.

(** Modelled from the spec: [OTSpan.add_link] is not part of the sources at
    hand. The links are "a set of (target-span-reference,
    relationship-attributes) pairs"; the module reads them as a dictionary
    from contexts to attribute dictionaries. *)
Definition add_link (self : Span.t) (context : SpanContext.t)
    (attributes : gmap string pyval) : Span.t :=
  Span.with_links (PyDict.setitem context attributes (Span.links self)) self.

(** Modelled from the spec: the constructor of [OTSpan] (a pydantic model)
    is not part of the sources at hand. The fields take the keyword
    arguments; the attribute dictionary is copied, as the comment in
    [Span.__init__] says. *)
Definition OTSpan__init__ (cls : span_class) (kwargs : Kwargs.t) : Span.t :=
  Span.mk cls (Kwargs.context kwargs) (Kwargs.start_timestamp kwargs)
    (Kwargs.end_timestamp kwargs) (Kwargs.attributes kwargs)
    (Kwargs.links kwargs) (Kwargs.attributes_metadata kwargs).

(** Modelled from the spec: [DictNamespace] of
    [trulens_eval.utils.containers] is not part of the sources at hand. It
    is the "metadata map", "a DictNamespace indexing elements in
    attributes": a dictionary of its own that also stores each entry in
    [parent] under the key prefixed by [namespace]. *)
Definition DictNamespace__init__ (parent : DictNamespace.parent_ref)
    (namespace : string) : DictNamespace.t :=
  DictNamespace.mk parent namespace ∅.

Definition namespace_key (namespace key : string) : string :=
  namespace +:+ namespace_sep +:+ key.

(** [self.attributes_metadata[k] = v], on the span [self] that holds the
    namespace. *)
Definition DictNamespace__setitem__ (self : Span.t) (k : string) (v : pyval)
    : Span.t :=
  let ns := Span.attributes_metadata self in
  let key := namespace_key (DictNamespace.namespace ns) k in
  let entries := <[k := v]> (DictNamespace.entries ns) in
  match DictNamespace.parent ns with
  | DictNamespace.SpanAttributes =>
      Span.with_attributes_metadata
        (DictNamespace.mk DictNamespace.SpanAttributes
           (DictNamespace.namespace ns) entries)
        (Span.with_attributes (<[key := v]> (Span.attributes self)) self)
  | DictNamespace.Detached d =>
      Span.with_attributes_metadata
        (DictNamespace.mk (DictNamespace.Detached (<[key := v]> d))
           (DictNamespace.namespace ns) entries)
        self
  end.

(** *** [AttributeProperty] *)

(** [AttributeProperty.init_forward]: the descriptor resolves its type and
    its default on first use. *)
Definition init_forward (self : AttributeProperty.t)
    : outcome unit * AttributeProperty.t :=
  if AttributeProperty.forward_initialized self then (Return (), self)
  else
    let self := AttributeProperty.with_forward_initialized true self in
    let self :=
      match AttributeProperty.typ self, AttributeProperty.typ_factory self with
      | None, Some f => AttributeProperty.with_typ (Some (f ())) self
      | _, _ => self
      end in
    let self :=
      match is_None (AttributeProperty.default self),
            AttributeProperty.default_factory self with
      | true, Some f => AttributeProperty.with_default (f ()) self
      | _, _ => self
      end in
    let self :=
      match AttributeProperty.typ self,
            is_None (AttributeProperty.default self) with
      | None, false =>
          AttributeProperty.with_typ
            (Some (type (AttributeProperty.default self))) self
      | _, _ => self
      end in
    match AttributeProperty.typ self with
    | None => (Return (), AttributeProperty.with_tadapter None self)
    | Some t =>
        let self := AttributeProperty.with_tadapter (Some t) self in
        if is_None (AttributeProperty.default self) then (Return (), self)
        else if validate_python t (AttributeProperty.default self)
        then (Return (), self)
        else (Raise (ValidationError t (AttributeProperty.default self)), self)
    end.

(** [AttributeProperty.__get__] on an instance [obj] (on the class itself,
    [obj is None], the descriptor is returned). *)
Definition __get__ (self : AttributeProperty.t) (obj : Span.t)
    : outcome pyval * AttributeProperty.t :=
  let '(r, self) := init_forward self in
  match r with
  | Raise e => (Raise e, self)
  | Return _ =>
      (Return
         (match Span.attributes obj !! vendor_attr (AttributeProperty.name self)
          with
          | Some v => v
          | None => AttributeProperty.default self
          end),
       self)
  end.

(** [AttributeProperty.__set__] *)
Definition __set__ (self : AttributeProperty.t) (obj : Span.t) (v : pyval)
    : outcome unit * AttributeProperty.t * Span.t :=
  let '(r, self) := init_forward self in
  match r with
  | Raise e => (Raise e, self, obj)
  | Return _ =>
      let store :=
        Span.with_attributes
          (<[vendor_attr (AttributeProperty.name self) := v]>
             (Span.attributes obj)) obj in
      match AttributeProperty.tadapter self with
      | Some t =>
          if validate_python t v then (Return (), self, store)
          else (Raise (ValidationError t v), self, obj)
      | None => (Return (), self, store)
      end
  end.

(** [AttributeProperty.__delete__] *)
Definition __delete__ (self : AttributeProperty.t) (obj : Span.t)
    : outcome unit * Span.t :=
  let key := vendor_attr (AttributeProperty.name self) in
  match Span.attributes obj !! key with
  | Some _ =>
      (Return (), Span.with_attributes (delete key (Span.attributes obj)) obj)
  | None => (Raise KeyError, obj)
  end.

(** [AttributeProperty.__set_name__], called when the descriptor is bound
    to the attribute [name] of a class whose [__annotations__] are
    [annotations]: an annotation of that attribute becomes the type of the
    property and is removed from the class. *)
Definition __set_name__ (self : AttributeProperty.t)
    (annotations : gmap string pytype) (name : string)
    : AttributeProperty.t * gmap string pytype :=
  match annotations !! name with
  | Some t =>
      (AttributeProperty.with_tadapter (Some t)
         (AttributeProperty.with_typ (Some t) self),
       delete name annotations)
  | None => (self, annotations)
  end.

(** [Span.attribute_property]; [computed_field] registers the property
    with pydantic and leaves the descriptor as it is. *)
Definition attribute_property (name : string) (typ : option pytype)
    (typ_factory : option (unit → pytype)) (default : pyval)
    (default_factory : option (unit → pyval)) : AttributeProperty.t :=
  AttributeProperty.__init__ name typ typ_factory default default_factory.

(** *** The attribute properties declared by the classes *)

(** The properties assigned in the body of each class, under the name of
    the class attribute. None of them is annotated, therefore
    [AttributeProperty.__set_name__] leaves each as constructed. *)
Definition class_body (cls : span_class)
    : list (string * AttributeProperty.t) :=
  let prop name typ := (name, attribute_property name (Some typ) None VNone None) in
  match cls with
  | Span =>
      [ ("tags",
         attribute_property "tags" (Some (TList Tstr)) None VNone
           (Some (λ _, VList [])));
        ("span_type",
         attribute_property "span_type" None (Some (λ _, TSpanType)) VNone
           (Some (λ _, VEnum UNTYPED))) ]
  | TransSpanRecord => [ prop "record_id" Tstr ]
  | SpanMethodCall =>
      [ prop "inputs" (TOptional (TDict Tstr TAny));
        prop "output" (TOptional TJSON);
        prop "error" (TOptional TAny) ]
  | SpanRetriever =>
      [ prop "query_text" Tstr;
        prop "query_embedding" (TList Tfloat);
        prop "distance_type" Tstr;
        prop "num_contexts" Tint;
        prop "retrieved_contexts" (TList Tstr);
        prop "retrieved_scores" (TList Tfloat);
        prop "retrieved_embeddings" (TList (TList Tfloat)) ]
  | SpanReranker =>
      [ prop "query_text" Tstr;
        prop "model_name" Tstr;
        prop "top_n" Tint;
        prop "input_context_texts" (TList Tstr);
        prop "input_context_scores" (TOptional (TList Tfloat));
        prop "output_ranks" (TList Tint) ]
  | SpanLLM =>
      [ prop "model_name" Tstr;
        prop "model_type" Tstr;
        prop "temperature" Tfloat;
        prop "input_messages" (TList Tdict);
        prop "input_token_count" Tint;
        prop "output_messages" (TList Tdict);
        prop "output_token_count" Tint;
        prop "cost" Tfloat ]
  | SpanMemory => [ prop "memory_type" Tstr; prop "remembered" Tstr ]
  | SpanEmbedding =>
      [ prop "input_text" Tstr;
        prop "model_name" Tstr;
        prop "embedding" (TList Tfloat) ]
  | SpanTool => [ prop "description" Tstr ]
  | SpanAgent => [ prop "description" Tstr ]
  | SpanUntyped | TransSpanRecordAppCall | SpanRoot | SpanTask | SpanOther =>
      []
  end.

(** The classes an attribute of [cls] is looked up in: [cls] and its
    bases, nearest first. The hierarchy is five classes deep. *)
Fixpoint mro_from (depth : nat) (cls : span_class) : list span_class :=
  match depth with
  | O => []
  | S depth =>
      cls :: match base cls with
             | Some b => mro_from depth b
             | None => []
             end
  end.

Definition mro (cls : span_class) : list span_class := mro_from 5 cls.

(** Every attribute property an instance of [cls] has, its own and the
    inherited ones. *)
Definition attribute_properties (cls : span_class)
    : list (string * AttributeProperty.t) :=
  mro cls ≫= class_body.

(** The default a declaration gives to a field: [default], or the value
    of [default_factory] when [default] is [None]. *)
Definition declared_default (p : AttributeProperty.t) : pyval :=
  match is_None (AttributeProperty.default p),
        AttributeProperty.default_factory p with
  | true, Some f => f ()
  | _, _ => AttributeProperty.default p
  end.

(** The type a declaration gives to a field: [typ], or the value of
    [typ_factory], or the class of the default. *)
Definition declared_type (p : AttributeProperty.t) : option pytype :=
  match AttributeProperty.typ p, AttributeProperty.typ_factory p with
  | Some t, _ => Some t
  | None, Some f => Some (f ())
  | None, None =>
      if is_None (declared_default p) then None
      else Some (type (declared_default p))
  end.

(** *** Identifiers *)

(** [Span.span_id] *)
Definition span_id (self : Span.t) : Z :=
  SpanContext.span_id (Span.context self).

(** [Span.trace_id] *)
Definition trace_id (self : Span.t) : Z :=
  SpanContext.trace_id (Span.context self).

(** *** Parent links *)

(** [attributes.get(vendor_attr("relationship")) == "parent"] *)
Definition is_parent (attributes : gmap string pyval) : bool :=
  match attributes !! vendor_attr "relationship" with
  | Some (VStr s) => bool_decide (s = "parent")
  | _ => false
  end.

(** The loop of the getter of [Span.parent_context]: the context of the
    first link marked as parent. *)
Fixpoint first_parent (items : list (SpanContext.t * gmap string pyval))
    : option SpanContext.t :=
  match items with
  | [] => None
  | (link_context, link_attributes) :: items =>
      if is_parent link_attributes then Some link_context
      else first_parent items
  end.

(** [Span.parent_context] (getter) *)
Definition parent_context (self : Span.t) : option SpanContext.t :=
  first_parent (PyDict.items (Span.links self)).

(** [Span.parent_context] (setter) *)
Definition parent_context_setter (self : Span.t)
    (v : option SpanContext.t) : outcome unit * Span.t :=
  match v with
  | None => (Return (), self)
  | Some v =>
      let parent := {[ vendor_attr "relationship" := VStr "parent" ]} in
      match parent_context self with
      | Some existing =>
          match PyDict.delitem existing (Span.links self) with
          | Return links' =>
              (Return (), add_link (Span.with_links links' self) v parent)
          | Raise e => (Raise e, self)
          end
      | None => (Return (), add_link self v parent)
      end
  end.

(** [Span.parent_span_id] *)
Definition parent_span_id (self : Span.t) : option Z :=
  match parent_context self with
  | Some parent_context => Some (SpanContext.span_id parent_context)
  | None => None
  end.

(** A run of assignments [self.parent_context = c], stopping at the first
    that raises. *)
Fixpoint assign_parents (self : Span.t) (targets : list SpanContext.t)
    : outcome unit * Span.t :=
  match targets with
  | [] => (Return (), self)
  | c :: targets =>
      match parent_context_setter self (Some c) with
      | (Return _, self) => assign_parents self targets
      | (Raise e, self) => (Raise e, self)
      end
  end.

(** *** Metadata and construction *)

(** [Span.metadata] (getter) *)
Definition metadata (self : Span.t) : DictNamespace.t :=
  Span.attributes_metadata self.

(** [Span.metadata] (setter): one item assignment per entry of [v]. *)
Definition metadata_setter (self : Span.t) (v : gmap string pyval) : Span.t :=
  foldl (λ self kv, DictNamespace__setitem__ self kv.1 kv.2) self
    (map_to_list v).

(** [Span.__init__], for an instance of class [cls]. *)
Definition Span__init__ (cls : span_class) (kwargs : Kwargs.t) : Span.t :=
  let kwargs :=
    Kwargs.with_attributes_metadata
      (DictNamespace__init__ (DictNamespace.Detached ∅) "temp") kwargs in
  let self := OTSpan__init__ cls kwargs in
  let self :=
    Span.with_attributes_metadata
      (DictNamespace__init__ DictNamespace.SpanAttributes
         (vendor_attr "metadata"))
      self in
  set_attribute self (vendor_attr "span_type")
    (VStr (__name__ (Span.__class__ self))).

(** [getattr(cls, attr)] for an attribute property: the first class of
    the resolution order that assigns [attr] in its body decides. *)
Definition class_getattr (cls : span_class) (attr : string)
    : option AttributeProperty.t :=
  PyDict.get attr (attribute_properties cls).

(** *** Notions used in the statements *)

(** The states a descriptor declared as [p0] goes through: as declared,
    and as left by the first [init_forward]. *)
Definition descriptor_state (p0 p : AttributeProperty.t) : Prop :=
  p = p0 ∨ p = (init_forward p0).2.

(** A declaration whose default, when there is one, passes the validation
    of its own type. *)
Definition default_accepted (p0 : AttributeProperty.t) : Prop :=
  AttributeProperty.forward_initialized p0 = false ∧
  ∃ t, declared_type p0 = Some t ∧
       (is_None (declared_default p0) = true ∨
        validate_python t (declared_default p0) = true).

(** The links of a span that are marked as parent. *)
Definition parent_links (self : Span.t)
    : list (SpanContext.t * gmap string pyval) :=
  filter (λ kv, is_parent kv.2 = true) (Span.links self).

End span.

(** *** [SpanType.to_class] *)

(** What the module object has under a name: one of the span classes, or
    something else (an import, a helper class, a constant, an attribute
    of the type of module objects). *)
Inductive module_attr :=
| Class (cls : span_class)
| NotASpan.

(** The globals of the module [trulens_eval.trace.span]: the names
    Python binds in every module, then the imports, the assignments and
    the classes in the order of the file. *)
Definition module_span : list (string * module_attr) :=
  map (λ n, (n, NotASpan))
    [ "__name__"; "__doc__"; "__package__"; "__loader__"; "__spec__";
      "__file__"; "__cached__"; "__builtins__";
      "annotations"; "dataclasses"; "datetime"; "Enum"; "getLogger";
      "Annotated"; "Any"; "Callable"; "Dict"; "Generic"; "List"; "Optional";
      "Type"; "TypeVar"; "ot_span"; "ot_types"; "pd"; "pydantic_core";
      "pydantic"; "computed_field"; "Field"; "TypeAdapter"; "PlainValidator";
      "cs"; "GetCoreSchemaHandler"; "GetJsonSchemaHandler"; "JsonSchemaValue";
      "json"; "mod_trace"; "mod_record_schema"; "JSON"; "mod_container_utils";
      "logger"; "T"; "AttributeProperty" ]
  ++ [ ("Span", Class Span);
       ("SpanUntyped", Class SpanUntyped);
       ("TransSpanRecord", Class TransSpanRecord);
       ("SpanMethodCall", Class SpanMethodCall);
       ("TransSpanRecordAppCall", Class TransSpanRecordAppCall);
       ("SpanRoot", Class SpanRoot);
       ("SpanTyped", Class SpanTyped);
       ("SpanRetriever", Class SpanRetriever);
       ("SpanReranker", Class SpanReranker);
       ("SpanLLM", Class SpanLLM);
       ("SpanMemory", Class SpanMemory);
       ("SpanEmbedding", Class SpanEmbedding);
       ("SpanTool", Class SpanTool);
       ("SpanAgent", Class SpanAgent);
       ("SpanTask", Class SpanTask);
       ("SpanOther", Class SpanOther);
       ("SpanType", NotASpan) ].

(** What the interpreter adds to the globals of a module. *)
Class Interpreter := {
  (** The names a module object has through its type ([__class__],
      [__dict__], [__repr__], ...); which they are depends on the version
      of Python. *)
  module_type_hasattr : string → bool
}.

Section taxonomy.
Context {interpreter : Interpreter}.

(** [getattr(mod_trace.span, name)], [None] when [hasattr] is false: the
    global of that name, or else what the module object has under that
    name through its type. The names of the type are names of the
    interpreter, not of span classes, so [to_class] does not observe the
    order of the two lookups. *)
Definition getattr (name : string) : option module_attr :=
  match PyDict.get name module_span with
  | Some a => Some a
  | None => if module_type_hasattr name then Some NotASpan else None
  end.


(** The body of [SpanType.to_class], which uses [self] through
    [self.value] only. *)
Definition to_class_of_value (v : string) : outcome module_attr :=
  match getattr v with
  | Some a => Return a
  | None => Raise (ValueError ("Span type " +:+ v +:+ " not found in module."))
  end.

(** [SpanType.to_class] *)
Definition to_class (self : SpanType) : outcome module_attr :=
  to_class_of_value (value self).

End taxonomy.

(** ** A validator to run the examples with *)

(** The values every mode of pydantic accepts for an annotation of the
    module; it stands for [validate_python] in the examples below. *)
Fixpoint conforms (t : pytype) (v : pyval) : bool :=
  match t, v with
  | TNoneType, VNone | Tbool, VBool _ | Tint, VInt _ | Tfloat, VFloat _
  | Tstr, VStr _ | Tlist, VList _ | Tdict, VDict _ | TSpanType, VEnum _ =>
      true
  | TAny, _ => true
  | TJSON, VEnum _ => false
  | TJSON, _ => true
  | TList t, VList xs => forallb (conforms t) xs
  | TDict k t, VDict kvs =>
      forallb (λ kv, conforms k (VStr kv.1) && conforms t kv.2) kvs
  | TOptional _, VNone => true
  | TOptional t, v => conforms t v
  | _, _ => false
  end.

Definition example_environment : Environment :=
  {| _vendor := "vendor@"; namespace_sep := "."; validate_python := conforms |}.

(** The names a module object of CPython 3.11 has through its type. *)
Definition example_interpreter : Interpreter :=
  {| module_type_hasattr name :=
       bool_decide
         (name ∈ [ "__annotations__"; "__class__"; "__delattr__"; "__dict__";
                   "__dir__"; "__doc__"; "__eq__"; "__format__"; "__ge__";
                   "__getattribute__"; "__getstate__"; "__gt__"; "__hash__";
                   "__init__"; "__init_subclass__"; "__le__"; "__lt__";
                   "__ne__"; "__new__"; "__reduce__"; "__reduce_ex__";
                   "__repr__"; "__setattr__"; "__sizeof__"; "__str__";
                   "__subclasshook__" ]) |}.

(** A span to run the examples on: an instance of [cls] constructed
    without attributes and without links. *)
Definition example_kwargs : Kwargs.t :=
  Kwargs.mk (SpanContext.mk 7 1) 1000 None ∅ []
    (DictNamespace.mk (DictNamespace.Detached ∅) "unset" ∅).

Definition example_span (cls : span_class) : Span.t :=
  @Span__init__ example_environment cls example_kwargs.

(** The two parallel fields of [SpanRetriever] the examples write. *)
Definition retrieved_contexts : AttributeProperty.t :=
  attribute_property "retrieved_contexts" (Some (TList Tstr)) None VNone None.

Definition retrieved_scores : AttributeProperty.t :=
  attribute_property "retrieved_scores" (Some (TList Tfloat)) None VNone None.

(** Three context texts, and two scores: 1.0 and 0.5. *)
Definition three_contexts : pyval :=
  VList [VStr "alpha"; VStr "beta"; VStr "gamma"].

Definition two_scores : pyval :=
  VList [VFloat 0x3FF0000000000000; VFloat 0x3FE0000000000000].

(** Two contexts of the trace of the example span. *)
Definition context_2 : SpanContext.t := SpanContext.mk 7 2.

Definition context_3 : SpanContext.t := SpanContext.mk 7 3.

(** A retriever span whose contexts are set, and the keyword arguments
    of a retriever span that passes three contexts and two scores. *)
Definition contexts_span : Span.t :=
  (@__set__ example_environment retrieved_contexts
     (example_span SpanRetriever) three_contexts).2.

Definition uneven_kwargs : Kwargs.t :=
  Kwargs.mk (SpanContext.mk 7 4) 1200 None
    (<[ "vendor@retrieved_scores" := two_scores ]>
       {[ "vendor@retrieved_contexts" := three_contexts ]})
    []
    (DictNamespace.mk (DictNamespace.Detached ∅) "unset" ∅).

(** A retriever span whose scores are set. *)
Definition scored_span : Span.t :=
  (@__set__ example_environment retrieved_scores (example_span SpanRetriever)
     two_scores).2.

(** The property [span_type] as [Span] declares it. *)
Definition span_type_property : AttributeProperty.t :=
  attribute_property "span_type" None (Some (λ _, TSpanType)) VNone
    (Some (λ _, VEnum UNTYPED)).

(** The property [temperature] as [SpanLLM] declares it. *)
Definition temperature_property : AttributeProperty.t :=
  attribute_property "temperature" (Some Tfloat) None VNone None.

(** Declarations the module could make with [attribute_property]: an
    integer property whose default is a string, a property without type
    and default, and a property constructed with one type and annotated
    with another. *)
Definition miscounted : AttributeProperty.t :=
  attribute_property "count" (Some Tint) None (VStr "many") None.

Definition note : AttributeProperty.t :=
  attribute_property "note" None None VNone None.

Definition relabelled : AttributeProperty.t :=
  attribute_property "top_n" (Some Tstr) None VNone None.

(** The annotations of a class that annotates [top_n] as an integer. *)
Definition top_n_annotated : gmap string pytype := {[ "top_n" := Tint ]}.

(** A root span of the same trace as the example span. *)
Definition example_root : Span.t :=
  @Span__init__ example_environment SpanRoot
    (Kwargs.mk (SpanContext.mk 7 9) 900 None ∅ []
       (DictNamespace.mk (DictNamespace.Detached ∅) "unset" ∅)).

(** * Properties *)

Section properties.
Context `{!Environment}.
Context {interpreter : Interpreter}.

(** ** The attribute store *)

(** pydantic accepts the two defaults the module declares that are not
    [None]: the empty list for [tags] and [SpanType.UNTYPED] for
    [span_type]. *)
Hypothesis validate_tags_default :
  validate_python (TList Tstr) (VList []) = true.
Hypothesis validate_span_type_default :
  validate_python TSpanType (VEnum UNTYPED) = true.

Lemma init_forward_declared p0 t :
  AttributeProperty.forward_initialized p0 = false →
  declared_type p0 = Some t →
  is_None (declared_default p0) = true ∨
    validate_python t (declared_default p0) = true →
  init_forward p0 =
    (Return (),
     AttributeProperty.mk (AttributeProperty.name p0) (Some t)
       (AttributeProperty.typ_factory p0) (declared_default p0)
       (AttributeProperty.default_factory p0) true (Some t)).
Proof.
  destruct p0 as [n ty tf d df fi ta]; simpl.
  unfold declared_type, declared_default, init_forward; simpl.
  intros -> Ht Hd.
  destruct ty as [ty|], tf as [tf|], df as [df|], d; simpl in *;
    simplify_eq; simpl in *;
    try (destruct (is_None (df ())) eqn:Hnone; simpl in * );
    simplify_eq; simpl in *;
    try (destruct Hd as [Hd|Hd]; [congruence|]);
    rewrite ?Hd, ?Hnone, ?Hd; done.
Qed.

Lemma init_forward_again p :
  AttributeProperty.forward_initialized p = true → init_forward p = (Return (), p).
Proof. unfold init_forward. by intros ->. Qed.

Lemma declared_default_accepted cls attr p0 :
  (attr, p0) ∈ attribute_properties cls → default_accepted p0.
Proof.
  intros Hin.
  destruct cls; unfold attribute_properties, mro in Hin; simpl in Hin;
    repeat (apply elem_of_cons in Hin as [Hin|Hin];
            [ simplify_eq; split; [done|];
              eexists; split; [reflexivity|]; simpl; auto | ]);
    by apply elem_of_nil in Hin.
Qed.

Lemma init_forward_state p0 p :
  default_accepted p0 → descriptor_state p0 p →
  ∃ t, declared_type p0 = Some t ∧
       init_forward p =
         (Return (),
          AttributeProperty.mk (AttributeProperty.name p0) (Some t)
            (AttributeProperty.typ_factory p0) (declared_default p0)
            (AttributeProperty.default_factory p0) true (Some t)).
Proof.
  intros (Hfresh & t & Ht & Hd) Hp. exists t. split; [done|].
  pose proof (init_forward_declared p0 t Hfresh Ht Hd) as Hinit.
  destruct Hp as [->| ->]; [done|].
  rewrite Hinit. simpl. by apply init_forward_again.
Qed.

Lemma get_declared p0 p obj :
  default_accepted p0 → descriptor_state p0 p →
  (__get__ p obj).1 =
    Return (match Span.attributes obj !! vendor_attr (AttributeProperty.name p0)
            with
            | Some v => v
            | None => declared_default p0
            end).
Proof.
  intros Hp0 Hp. destruct (init_forward_state p0 p Hp0 Hp) as (t & _ & Hinit).
  unfold __get__. by rewrite Hinit.
Qed.

Lemma set_declared p0 p obj t v :
  default_accepted p0 → descriptor_state p0 p → declared_type p0 = Some t →
  ∃ p', descriptor_state p0 p' ∧
    __set__ p obj v =
      if validate_python t v
      then (Return (), p',
            Span.with_attributes
              (<[vendor_attr (AttributeProperty.name p0) := v]>
                 (Span.attributes obj)) obj)
      else (Raise (ValidationError t v), p', obj).
Proof.
  intros Hp0 Hp Ht.
  destruct (init_forward_state p0 p Hp0 Hp) as (t' & Ht' & Hinit).
  assert (t' = t) as -> by congruence.
  destruct (init_forward_state p0 p0 Hp0 (or_introl eq_refl))
    as (t' & Ht'' & Hinit0).
  assert (t' = t) as -> by congruence.
  exists (init_forward p0).2. split; [by right|].
  unfold __set__. rewrite Hinit, Hinit0. simpl.
  by destruct (validate_python t v).
Qed.

(** C1. Every typed field [p0] of every span class: while the key of the
    field is absent from the attribute store, reading the field gives the
    declared default; after the field is set to a value [v] that the
    declared type accepts, reading it gives [v]. This holds whether or not
    the descriptor has been used before. *)
Theorem attribute_get_set_roundtrip cls attr p0 p obj :
  (attr, p0) ∈ attribute_properties cls →
  descriptor_state p0 p →
  (Span.attributes obj !! vendor_attr (AttributeProperty.name p0) = None →
   (__get__ p obj).1 = Return (declared_default p0)) ∧
  (∀ t v, declared_type p0 = Some t → validate_python t v = true →
     ∃ p' obj', __set__ p obj v = (Return (), p', obj') ∧
                (__get__ p' obj').1 = Return v).
Proof.
  intros Hin Hp. pose proof (declared_default_accepted _ _ _ Hin) as Hp0.
  split.
  - intros Hunset. rewrite (get_declared p0 p obj Hp0 Hp). by rewrite Hunset.
  - intros t v Ht Hv.
    destruct (set_declared p0 p obj t v Hp0 Hp Ht) as (p' & Hp' & Hset).
    rewrite Hv in Hset. eexists _, _. split; [exact Hset|].
    rewrite (get_declared p0 p' _ Hp0 Hp'). simpl.
    by rewrite lookup_insert_eq.
Qed.

(** C2. Every typed field [p0] of every span class: setting the field to a
    value [v] that the declared type [t] rejects raises the validation
    error and leaves the span as it was, so that reading the field gives
    what it gave before the write. *)
Theorem attribute_set_rejected cls attr p0 p obj t v :
  (attr, p0) ∈ attribute_properties cls →
  descriptor_state p0 p →
  declared_type p0 = Some t →
  validate_python t v = false →
  ∃ p', __set__ p obj v = (Raise (ValidationError t v), p', obj) ∧
        (__get__ p' obj).1 = (__get__ p obj).1.
Proof.
  intros Hin Hp Ht Hv. pose proof (declared_default_accepted _ _ _ Hin) as Hp0.
  destruct (set_declared p0 p obj t v Hp0 Hp Ht) as (p' & Hp' & Hset).
  rewrite Hv in Hset. exists p'. split; [exact Hset|].
  by rewrite (get_declared p0 p' obj Hp0 Hp'), (get_declared p0 p obj Hp0 Hp).
Qed.

(** ** Parent links *)

Section link_lists.
Implicit Types l : list (SpanContext.t * gmap string pyval).
Implicit Types c : SpanContext.t.

Lemma is_parent_spec (a : gmap string pyval) :
  is_parent a = true ↔ a !! vendor_attr "relationship" = Some (VStr "parent").
Proof.
  unfold is_parent.
  destruct (a !! vendor_attr "relationship") as [[]|]; try (split; congruence).
  rewrite bool_decide_eq_true. split; congruence.
Qed.

Lemma is_parent_marker :
  is_parent {[ vendor_attr "relationship" := VStr "parent" ]} = true.
Proof. apply is_parent_spec, lookup_singleton_eq. Qed.

Lemma first_parent_head l :
  first_parent l = fst <$> head (filter (λ kv, is_parent kv.2 = true) l).
Proof.
  induction l as [|[c a] l IH]; [done|]. cbn [first_parent].
  destruct (is_parent a) eqn:Ha.
  - rewrite filter_cons_True by (simpl; congruence). done.
  - rewrite filter_cons_False by (simpl; congruence). done.
Qed.

Lemma first_parent_key l c :
  first_parent l = Some c → is_Some (PyDict.get c l).
Proof.
  induction l as [|[k a] l IH]; [done|]. simpl.
  destruct (is_parent a).
  - intros [= ->]. rewrite decide_True; eauto.
  - intros Hc. destruct (decide (c = k)); eauto.
Qed.

Lemma filter_remove_parent l c :
  (∀ kv, kv ∈ filter (λ kv, is_parent kv.2 = true) l → kv.1 = c) →
  filter (λ kv, is_parent kv.2 = true) (PyDict.remove c l) = [].
Proof.
  unfold PyDict.remove.
  induction l as [|[k a] l IH]; [done|]. intros Hkeys.
  destruct (is_parent a) eqn:Ha.
  - rewrite filter_cons_True in Hkeys by (simpl; congruence).
    rewrite filter_cons_False.
    + apply IH. intros kv Hkv. apply Hkeys. by right.
    + intros Hne. apply Hne. apply (Hkeys (k, a)). by left.
  - rewrite filter_cons_False in Hkeys by (simpl; congruence).
    destruct (decide (k = c)) as [->|Hne].
    + rewrite filter_cons_False by (simpl; tauto). by apply IH.
    + rewrite filter_cons_True by done.
      rewrite filter_cons_False by (simpl; congruence). by apply IH.
Qed.

Lemma filter_setitem_parent l c (a : gmap string pyval) :
  filter (λ kv, is_parent kv.2 = true) l = [] → is_parent a = true →
  filter (λ kv, is_parent kv.2 = true) (PyDict.setitem c a l) = [(c, a)].
Proof.
  intros Hl Ha. induction l as [|[k b] l IH]; simpl.
  - rewrite filter_cons_True by (simpl; congruence). done.
  - destruct (is_parent b) eqn:Hb.
    { rewrite filter_cons_True in Hl by (simpl; congruence). done. }
    rewrite filter_cons_False in Hl by (simpl; congruence).
    destruct (decide (c = k)) as [->|Hne].
    + rewrite filter_cons_True by (simpl; congruence). by rewrite Hl.
    + rewrite filter_cons_False by (simpl; congruence). by apply IH.
Qed.

Lemma get_setitem_ne l c c' (a : gmap string pyval) :
  c' ≠ c → PyDict.get c' (PyDict.setitem c a l) = PyDict.get c' l.
Proof.
  intros Hne. induction l as [|[k b] l IH]; simpl.
  - by rewrite decide_False.
  - destruct (decide (c = k)) as [->|Hck]; simpl.
    + by rewrite !decide_False.
    + by rewrite IH.
Qed.

Lemma get_remove l c : PyDict.get c (PyDict.remove c l) = None.
Proof.
  unfold PyDict.remove. induction l as [|[k b] l IH]; [done|].
  destruct (decide (k = c)) as [->|Hne].
  - by rewrite filter_cons_False by (simpl; tauto).
  - rewrite filter_cons_True by done. simpl.
    rewrite decide_False by done. exact IH.
Qed.

End link_lists.

Lemma parent_links_single self c :
  (List.length (parent_links self) ≤ 1)%nat → parent_context self = Some c →
  ∀ kv, kv ∈ parent_links self → kv.1 = c.
Proof.
  unfold parent_context, parent_links, PyDict.items.
  rewrite first_parent_head.
  destruct (filter _ (Span.links self)) as [|[k b] [|? ?]]; simpl;
    intros Hlen Hhead kv Hkv; [done| |lia].
  apply list_elem_of_singleton in Hkv as ->. by simplify_eq.
Qed.

Lemma parent_context_setter_assigns self c :
  (List.length (parent_links self) ≤ 1)%nat →
  ∃ self',
    parent_context_setter self (Some c) = (Return (), self') ∧
    parent_links self' = [(c, {[ vendor_attr "relationship" := VStr "parent" ]})] ∧
    parent_context self' = Some c ∧
    (∀ x, parent_context self = Some x → x ≠ c →
          PyDict.get x (Span.links self') = None).
Proof.
  intros Hlen. unfold parent_context_setter.
  destruct (parent_context self) as [existing|] eqn:Hexisting.
  - destruct (first_parent_key _ _ Hexisting) as [a Ha].
    unfold PyDict.items in Ha. unfold PyDict.delitem. rewrite Ha.
    eexists. split; [reflexivity|].
    assert (parent_links (add_link
              (Span.with_links (PyDict.remove existing (Span.links self)) self)
              c {[ vendor_attr "relationship" := VStr "parent" ]})
            = [(c, {[ vendor_attr "relationship" := VStr "parent" ]})])
      as Hlinks.
    { unfold parent_links, add_link. simpl.
      apply filter_setitem_parent; [|apply is_parent_marker].
      apply filter_remove_parent.
      by apply (parent_links_single self existing). }
    split; [exact Hlinks|]. split.
    + unfold parent_context, PyDict.items. rewrite first_parent_head.
      fold (parent_links (add_link
              (Span.with_links (PyDict.remove existing (Span.links self)) self)
              c {[ vendor_attr "relationship" := VStr "parent" ]})).
      by rewrite Hlinks.
    + intros x [= <-] Hne. unfold add_link. simpl.
      rewrite get_setitem_ne by done. apply get_remove.
  - eexists. split; [reflexivity|].
    assert (parent_links (add_link self c
              {[ vendor_attr "relationship" := VStr "parent" ]})
            = [(c, {[ vendor_attr "relationship" := VStr "parent" ]})])
      as Hlinks.
    { unfold parent_links, add_link. simpl.
      apply filter_setitem_parent; [|apply is_parent_marker].
      unfold parent_context, PyDict.items in Hexisting.
      rewrite first_parent_head in Hexisting.
      by destruct (filter _ (Span.links self)). }
    split; [exact Hlinks|]. split; [|done].
    unfold parent_context, PyDict.items. rewrite first_parent_head.
    fold (parent_links (add_link self c
            {[ vendor_attr "relationship" := VStr "parent" ]})).
    by rewrite Hlinks.
Qed.

Lemma assign_parents_unique targets : ∀ self,
  (List.length (parent_links self) ≤ 1)%nat →
  ∃ self',
    assign_parents self targets = (Return (), self') ∧
    (List.length (parent_links self') ≤ 1)%nat ∧
    parent_context self' =
      match last targets with
      | Some c => Some c
      | None => parent_context self
      end.
Proof.
  induction targets as [|c targets IH]; intros self Hlen.
  - exists self. done.
  - destruct (parent_context_setter_assigns self c Hlen)
      as (self1 & Hset & Hlinks & Hparent & _).
    destruct (IH self1) as (self' & Hrun & Hlen' & Hparent').
    { rewrite Hlinks. simpl. lia. }
    exists self'. cbn [assign_parents]. rewrite Hset.
    split; [exact Hrun|]. split; [exact Hlen'|].
    rewrite Hparent', last_cons, Hparent. by destruct (last targets).
Qed.

(** C3. A span with at most one parent link keeps at most one through
    every run of parent assignments with targets that are not [None]: at
    each point of the run the assignments made so far succeeded, at most
    one link is marked as parent, and the parent is the target assigned
    last. In particular after the parent is set to [X] and then to [Y] the
    parent is [Y], the link to [Y] is the only parent link, and for
    [X ≠ Y] no link to [X] is left. *)
Theorem parent_assignments_keep_one_parent self targets X Y :
  (List.length (parent_links self) ≤ 1)%nat →
  (∀ assigned, assigned `prefix_of` targets →
     ∃ self',
       assign_parents self assigned = (Return (), self') ∧
       (List.length (parent_links self') ≤ 1)%nat ∧
       parent_context self' =
         match last assigned with
         | Some c => Some c
         | None => parent_context self
         end) ∧
  (∃ self',
     assign_parents self [X; Y] = (Return (), self') ∧
     parent_context self' = Some Y ∧
     parent_links self' =
       [(Y, {[ vendor_attr "relationship" := VStr "parent" ]})] ∧
     (X ≠ Y → PyDict.get X (Span.links self') = None)).
Proof.
  intros Hlen. split.
  - intros assigned _. by apply assign_parents_unique.
  - destruct (parent_context_setter_assigns self X Hlen)
      as (self1 & Hset1 & Hlinks1 & Hparent1 & _).
    destruct (parent_context_setter_assigns self1 Y)
      as (self2 & Hset2 & Hlinks2 & Hparent2 & Hgone).
    { rewrite Hlinks1. simpl. lia. }
    exists self2. cbn [assign_parents]. rewrite Hset1, Hset2.
    split; [done|]. split; [done|]. split; [done|].
    intros Hne. by apply Hgone.
Qed.

(** C4. The parent span id of a span is the span id of the context of
    its parent link, a link of the span whose relationship attribute is
    "parent"; it is [None] exactly when no link of the span has the
    relationship attribute "parent". *)
Theorem parent_span_id_follows_parent_link self :
  parent_span_id self = SpanContext.span_id <$> parent_context self ∧
  (∀ c, parent_context self = Some c →
     ∃ a, (c, a) ∈ Span.links self ∧
          a !! vendor_attr "relationship" = Some (VStr "parent")) ∧
  (parent_span_id self = None ↔
   ∀ c a, (c, a) ∈ Span.links self →
          a !! vendor_attr "relationship" ≠ Some (VStr "parent")).
Proof.
  unfold parent_span_id, parent_context, PyDict.items.
  rewrite first_parent_head.
  split; [by destruct (head _)|]. split.
  - intros c Hc.
    destruct (head _) as [[k a]|] eqn:Hhead; simplify_eq/=.
    apply head_Some_elem_of, list_elem_of_filter in Hhead as [Ha Hin].
    exists a. split; [done|]. by apply is_parent_spec.
  - destruct (head _) as [[k a]|] eqn:Hhead; simpl.
    + split; [done|]. intros Hnone.
      apply head_Some_elem_of, list_elem_of_filter in Hhead as [Ha Hin].
      destruct (Hnone k a Hin). by apply is_parent_spec.
    + split; [|done]. intros _ c a Hin Ha.
      apply head_None in Hhead.
      apply (filter_nil_not_elem_of _ _ (c, a)) in Hhead; [done|].
      by apply is_parent_spec.
Qed.

(** C9. Assigning [None] to the parent context of a span does nothing:
    the assignment returns, the span is what it was, links included, and
    the parent read afterwards is the parent read before. *)
Theorem parent_assignment_of_None_is_noop self :
  ∃ self',
    parent_context_setter self None = (Return (), self') ∧
    self' = self ∧
    Span.links self' = Span.links self ∧
    parent_context self' = parent_context self.
Proof. exists self. done. Qed.

(** ** Construction and metadata *)

(** C7. A span constructed as an instance of the class [cls] stores the
    name of [cls] under the key of [span_type]: its class is [cls], the
    stored span type is [cls.__name__], and that is the value of each
    member of [SpanType] that resolves to [cls]. *)
Theorem constructed_span_type_is_class_name cls kwargs :
  Span.__class__ (Span__init__ cls kwargs) = cls ∧
  Span.attributes (Span__init__ cls kwargs) !! vendor_attr "span_type"
    = Some (VStr (__name__ cls)) ∧
  (∀ m, to_class m = Return (Class cls) →
        Span.attributes (Span__init__ cls kwargs) !! vendor_attr "span_type"
          = Some (VStr (value m))).
Proof.
  assert (Span.attributes (Span__init__ cls kwargs) !! vendor_attr "span_type"
          = Some (VStr (__name__ cls))) as Hstored.
  { unfold Span__init__, set_attribute. simpl. apply lookup_insert_eq. }
  split; [done|]. split; [done|].
  intros m Hm. rewrite Hstored. do 2 f_equal.
  by destruct m; vm_compute in Hm; simplify_eq.
Qed.

Section folds.
Context (f : string → string) `{!Inj (=) (=) f}.
Implicit Types l : list (string * pyval).
Implicit Types m : gmap string pyval.

Lemma foldl_insert_other l m a :
  (∀ kv, kv ∈ l → f kv.1 ≠ a) →
  foldl (λ m kv, <[f kv.1 := kv.2]> m) m l !! a = m !! a.
Proof.
  revert m. induction l as [|kv l IH]; intros m Hl; [done|]. simpl.
  rewrite IH by (intros ? ?; apply Hl; by right).
  apply lookup_insert_ne, Hl. by left.
Qed.

Lemma foldl_insert_elem l m k v :
  NoDup l.*1 → (k, v) ∈ l →
  foldl (λ m kv, <[f kv.1 := kv.2]> m) m l !! f k = Some v.
Proof.
  revert m. induction l as [|kv l IH]; intros m Hnodup Hin.
  { by apply elem_of_nil in Hin. }
  rewrite fmap_cons in Hnodup. apply NoDup_cons in Hnodup as [Hfresh Hnodup].
  apply elem_of_cons in Hin as [<-|Hin]; simpl.
  - rewrite foldl_insert_other; [apply lookup_insert_eq|].
    intros kv Hkv Heq. apply (inj f) in Heq. apply Hfresh.
    simpl. rewrite <- Heq. by apply list_elem_of_fmap_2.
  - by apply IH.
Qed.

End folds.

Lemma metadata_setter_fold (l : list (string * pyval)) : ∀ self,
  foldl (λ self kv, DictNamespace__setitem__ self kv.1 kv.2) self l =
  let ns := Span.attributes_metadata self in
  let key := namespace_key (DictNamespace.namespace ns) in
  let entries :=
    foldl (λ m kv, <[kv.1 := kv.2]> m) (DictNamespace.entries ns) l in
  match DictNamespace.parent ns with
  | DictNamespace.SpanAttributes =>
      Span.with_attributes_metadata
        (DictNamespace.mk DictNamespace.SpanAttributes
           (DictNamespace.namespace ns) entries)
        (Span.with_attributes
           (foldl (λ m kv, <[key kv.1 := kv.2]> m) (Span.attributes self) l)
           self)
  | DictNamespace.Detached d =>
      Span.with_attributes_metadata
        (DictNamespace.mk
           (DictNamespace.Detached (foldl (λ m kv, <[key kv.1 := kv.2]> m) d l))
           (DictNamespace.namespace ns) entries)
        self
  end.
Proof.
  induction l as [|kv l IH]; intros [cls ctx t0 t1 a ls [par ns e]].
  - by destruct par.
  - cbn [foldl]. rewrite IH. by destruct par.
Qed.

Lemma namespace_key_inj namespace : Inj (=) (=) (namespace_key namespace).
Proof.
  intros k1 k2 Hk. unfold namespace_key in Hk.
  by do 2 apply (inj (String.app _)) in Hk.
Qed.

(** C10. Assigning the dictionary [d] to the metadata of a span merges:
    afterwards each key of [d] maps to its value from [d] and each other
    key of the metadata maps to what it mapped to before, in the metadata
    and, for the namespace over the attributes of the span, under the
    namespaced key in the attribute store; the attributes outside the
    namespace and the links are what they were. *)
Theorem metadata_assignment_merges self d :
  let self' := metadata_setter self d in
  let key :=
    namespace_key (DictNamespace.namespace (Span.attributes_metadata self)) in
  (∀ k v, d !! k = Some v →
     DictNamespace.entries (metadata self') !! k = Some v) ∧
  (∀ k, d !! k = None →
     DictNamespace.entries (metadata self') !! k
       = DictNamespace.entries (metadata self) !! k) ∧
  (DictNamespace.parent (Span.attributes_metadata self)
     = DictNamespace.SpanAttributes →
   (∀ k v, d !! k = Some v → Span.attributes self' !! key k = Some v) ∧
   (∀ k, d !! k = None →
      Span.attributes self' !! key k = Span.attributes self !! key k)) ∧
  (∀ a, (∀ k, a ≠ key k) →
     Span.attributes self' !! a = Span.attributes self !! a) ∧
  Span.links self' = Span.links self.
Proof.
  intros self' key. subst self'. unfold metadata_setter, metadata.
  rewrite metadata_setter_fold. cbv zeta. fold key.
  pose proof (NoDup_fst_map_to_list d) as Hnodup.
  pose proof (namespace_key_inj
    (DictNamespace.namespace (Span.attributes_metadata self))) as Hinj.
  fold key in Hinj.
  assert (∀ k, d !! k = None → ∀ kv, kv ∈ map_to_list d → kv.1 ≠ k)
    as Hother.
  { intros k Hk [k' v'] Hin%elem_of_map_to_list Heq. simpl in Heq. congruence. }
  split; [|split; [|split; [|split]]].
  - intros k v Hk%elem_of_map_to_list.
    destruct (DictNamespace.parent (Span.attributes_metadata self)); simpl;
      by apply (foldl_insert_elem id).
  - intros k Hk.
    destruct (DictNamespace.parent (Span.attributes_metadata self)); simpl;
      by apply (foldl_insert_other id), Hother.
  - intros ->. simpl. split.
    + intros k v Hk%elem_of_map_to_list. by apply (foldl_insert_elem key).
    + intros k Hk. apply (foldl_insert_other key). intros kv Hkv Heq.
      apply (inj key) in Heq. by apply (Hother k Hk kv).
  - intros a Ha. destruct (DictNamespace.parent (Span.attributes_metadata self)); simpl; [|done].
    apply (foldl_insert_other key). intros kv _ Heq. by apply (Ha kv.1).
  - by destruct (DictNamespace.parent (Span.attributes_metadata self)).
Qed.

(** ** Retriever fields *)

Lemma vendor_attr_inj : Inj (=) (=) vendor_attr.
Proof. intros a b Hab. by apply (inj (String.app _)) in Hab. Qed.

(** C8, as the code has it. The three parallel fields of a retriever
    span are independent typed fields. A write to one of them is checked
    against the declared list type of that field alone: a value that type
    accepts is stored whatever the other two fields hold, and the write
    changes no other key of the attribute store, no link and nothing of
    the metadata; a value that type rejects raises and changes nothing.
    Construction checks no lengths either: a newly constructed retriever
    span reads each of the three fields as the attribute passed to the
    constructor under its key, or as [None] when none was passed. *)
Theorem retriever_fields_are_independent attr p0 p obj t v kwargs :
  attr ∈ ["retrieved_contexts"; "retrieved_scores"; "retrieved_embeddings"] →
  class_getattr SpanRetriever attr = Some p0 →
  descriptor_state p0 p →
  declared_type p0 = Some t →
  (∃ item, t = TList item) ∧
  (validate_python t v = true →
   ∃ p' obj',
     __set__ p obj v = (Return (), p', obj') ∧
     Span.attributes obj' !! vendor_attr attr = Some v ∧
     (∀ k, k ≠ vendor_attr attr →
           Span.attributes obj' !! k = Span.attributes obj !! k) ∧
     Span.links obj' = Span.links obj ∧
     Span.attributes_metadata obj' = Span.attributes_metadata obj) ∧
  (validate_python t v = false →
   ∃ p', __set__ p obj v = (Raise (ValidationError t v), p', obj)) ∧
  (__get__ p (Span__init__ SpanRetriever kwargs)).1 =
    Return (match Kwargs.attributes kwargs !! vendor_attr attr with
            | Some w => w
            | None => VNone
            end).
Proof.
  intros Hattr Hp0 Hp Ht.
  assert (default_accepted p0 ∧ AttributeProperty.name p0 = attr ∧
          declared_default p0 = VNone ∧ attr ≠ "span_type" ∧
          ∃ item, declared_type p0 = Some (TList item))
    as (Hacc & Hname & Hdefault & Hne & item & Hitem).
  { repeat (apply elem_of_cons in Hattr as [->|Hattr]);
      [| | |by apply elem_of_nil in Hattr];
      vm_compute in Hp0; simplify_eq;
      (split; [split; [done|]; eexists; split; [reflexivity|by left]|]);
      (split; [done|]); (split; [done|]); (split; [done|]);
      eexists; reflexivity. }
  split; [exists item; congruence|].
  destruct (set_declared p0 p obj t v Hacc Hp Ht) as (p' & _ & Hset).
  rewrite Hname in Hset. split; [|split].
  - intros Hv. rewrite Hv in Hset. eexists _, _. split; [exact Hset|].
    simpl. split; [apply lookup_insert_eq|]. split; [|done].
    intros k Hk. by apply lookup_insert_ne.
  - intros Hv. rewrite Hv in Hset. by exists p'.
  - rewrite (get_declared p0 p _ Hacc Hp), Hname, Hdefault.
    unfold Span__init__, set_attribute. simpl.
    rewrite lookup_insert_ne; [done|].
    intros Heq. by apply vendor_attr_inj in Heq.
Qed.

End properties.

(** ** The taxonomy *)

Lemma get_elem_of {V} (k : string) (v : V) (d : list (string * V)) :
  PyDict.get k d = Some v → (k, v) ∈ d.
Proof.
  induction d as [|[k' v'] d IH]; [done|]. simpl.
  destruct (decide (k = k')) as [->|_].
  - intros [= ->]. by left.
  - intros Hget. right. by apply IH.
Qed.

Section taxonomy_properties.
Context {interpreter : Interpreter}.

Lemma to_class_of_value_class v cls :
  to_class_of_value v = Return (Class cls) →
  v = __name__ cls ∨ (v = "SpanTyped" ∧ cls = TransSpanRecordAppCall).
Proof.
  unfold to_class_of_value, getattr.
  destruct (PyDict.get v module_span) as [a|] eqn:Hget.
  - intros [= ->]. apply get_elem_of in Hget.
    unfold module_span in Hget. simpl in Hget.
    repeat (apply elem_of_cons in Hget as [Hget|Hget];
            [simplify_eq; first [by left | by right]|]).
    by apply elem_of_nil in Hget.
  - by destruct (module_type_hasattr v).
Qed.


End taxonomy_properties.

(** ** The statements at concrete spans *)

Lemma attribute_get_set_roundtrip_witness :
  conforms (TList Tstr) (VList []) = true ∧
  conforms TSpanType (VEnum UNTYPED) = true ∧
  ("retrieved_scores", retrieved_scores) ∈ attribute_properties SpanRetriever ∧
  descriptor_state (H:=example_environment) retrieved_scores retrieved_scores ∧
  (__get__ (H:=example_environment) retrieved_scores
     (example_span SpanRetriever)).1 = Return VNone ∧
  ∃ p' obj',
    __set__ (H:=example_environment) retrieved_scores
      (example_span SpanRetriever) two_scores = (Return (), p', obj') ∧
    (__get__ (H:=example_environment) p' obj').1 = Return two_scores.
Proof.
  assert (("retrieved_scores", retrieved_scores)
            ∈ attribute_properties SpanRetriever) as Hin.
  { unfold attribute_properties, mro. simpl. repeat constructor. }
  destruct (attribute_get_set_roundtrip (H:=example_environment)
              eq_refl eq_refl SpanRetriever "retrieved_scores"
              retrieved_scores retrieved_scores (example_span SpanRetriever)
              Hin (or_introl eq_refl)) as [Hunset Hset].
  split; [reflexivity|]. split; [reflexivity|]. split; [exact Hin|].
  split; [by left|]. split.
  - apply Hunset. reflexivity.
  - apply (Hset (TList Tfloat) two_scores); reflexivity.
Defined.

Lemma attribute_set_rejected_witness :
  conforms (TList Tstr) (VList []) = true ∧
  conforms TSpanType (VEnum UNTYPED) = true ∧
  declared_type retrieved_scores = Some (TList Tfloat) ∧
  conforms (TList Tfloat) (VStr "high") = false ∧
  ∃ p',
    __set__ (H:=example_environment) retrieved_scores
      (example_span SpanRetriever) (VStr "high")
      = (Raise (ValidationError (TList Tfloat) (VStr "high")), p',
         example_span SpanRetriever) ∧
    (__get__ (H:=example_environment) p' (example_span SpanRetriever)).1
      = (__get__ (H:=example_environment) retrieved_scores
           (example_span SpanRetriever)).1.
Proof.
  assert (("retrieved_scores", retrieved_scores)
            ∈ attribute_properties SpanRetriever) as Hin.
  { unfold attribute_properties, mro. simpl. repeat constructor. }
  split; [reflexivity|]. split; [reflexivity|]. split; [reflexivity|].
  split; [reflexivity|].
  apply (attribute_set_rejected (H:=example_environment) eq_refl eq_refl
           SpanRetriever "retrieved_scores" retrieved_scores retrieved_scores
           (example_span SpanRetriever) (TList Tfloat) (VStr "high") Hin
           (or_introl eq_refl) eq_refl eq_refl).
Defined.

Lemma parent_assignments_keep_one_parent_witness :
  (List.length (parent_links (H:=example_environment)
                  (example_span SpanLLM)) ≤ 1)%nat ∧
  ∃ self',
    assign_parents (H:=example_environment) (example_span SpanLLM)
      [context_2; context_3] = (Return (), self') ∧
    parent_context (H:=example_environment) self' = Some context_3 ∧
    PyDict.get context_2 (Span.links self') = None.
Proof.
  assert ((List.length (parent_links (H:=example_environment)
                          (example_span SpanLLM)) ≤ 1)%nat) as Hlen.
  { vm_compute. repeat constructor. }
  split; [exact Hlen|].
  destruct (parent_assignments_keep_one_parent (H:=example_environment)
              (example_span SpanLLM) [context_2; context_3]
              context_2 context_3 Hlen)
    as [_ (self' & Hrun & Hparent & _ & Hgone)].
  exists self'. split; [exact Hrun|]. split; [exact Hparent|].
  apply Hgone. discriminate.
Defined.

Lemma parent_span_id_follows_parent_link_witness :
  ∃ self',
    assign_parents (H:=example_environment) (example_span SpanLLM)
      [context_2] = (Return (), self') ∧
    parent_span_id (H:=example_environment) self' = Some 2%Z ∧
    (parent_span_id (H:=example_environment) (example_span SpanLLM) = None ↔
     ∀ c a, (c, a) ∈ Span.links (example_span SpanLLM) →
            a !! "vendor@relationship" ≠ Some (VStr "parent")).
Proof.
  eexists. split; [reflexivity|]. split; [reflexivity|].
  apply (parent_span_id_follows_parent_link (H:=example_environment)
           (example_span SpanLLM)).
Defined.

Lemma parent_assignment_of_None_is_noop_witness :
  ∃ self',
    assign_parents (H:=example_environment) (example_span SpanLLM)
      [context_2] = (Return (), self') ∧
    ∃ self'',
      parent_context_setter (H:=example_environment) self' None
        = (Return (), self'') ∧
      parent_context (H:=example_environment) self'' = Some context_2.
Proof.
  eexists. split; [reflexivity|].
  edestruct (parent_assignment_of_None_is_noop (H:=example_environment))
    as (self'' & Hset & _ & _ & Hparent).
  exists self''. split; [exact Hset|]. rewrite Hparent. reflexivity.
Defined.

Lemma constructed_span_type_is_class_name_witness :
  Span.attributes (example_span SpanRetriever) !! "vendor@span_type"
    = Some (VStr "SpanRetriever") ∧
  to_class (interpreter:=example_interpreter) RETRIEVER
    = Return (Class SpanRetriever).
Proof.
  split; [|reflexivity].
  apply (constructed_span_type_is_class_name (H:=example_environment)
           (interpreter:=example_interpreter) SpanRetriever example_kwargs).
Defined.

Lemma metadata_assignment_merges_witness :
  ∃ self',
    self' = metadata_setter (H:=example_environment) (example_span SpanLLM)
              {[ "user" := VStr "ada" ]} ∧
    Span.attributes
      (metadata_setter (H:=example_environment) self'
         {[ "team" := VStr "search" ]})
      !! "vendor@metadata.user" = Some (VStr "ada") ∧
    Span.attributes
      (metadata_setter (H:=example_environment) self'
         {[ "team" := VStr "search" ]})
      !! "vendor@metadata.team" = Some (VStr "search").
Proof.
  eexists. split; [reflexivity|].
  pose proof (metadata_assignment_merges (H:=example_environment)
    (metadata_setter (H:=example_environment) (example_span SpanLLM)
       {[ "user" := VStr "ada" ]})
    {[ "team" := VStr "search" ]}) as Hmerge.
  destruct Hmerge as (_ & _ & Halias & _).
  destruct (Halias eq_refl) as [Hnew Hold]. split.
  - exact (eq_trans (Hold "user" eq_refl) eq_refl).
  - exact (Hnew "team" (VStr "search") eq_refl).
Defined.



Lemma retriever_fields_are_independent_witness :
  "retrieved_scores"
    ∈ ["retrieved_contexts"; "retrieved_scores"; "retrieved_embeddings"] ∧
  class_getattr SpanRetriever "retrieved_scores" = Some retrieved_scores ∧
  conforms (TList Tfloat) two_scores = true ∧
  (∃ p' obj',
     __set__ (H:=example_environment) retrieved_scores contexts_span
       two_scores = (Return (), p', obj') ∧
     Span.attributes obj' !! "vendor@retrieved_scores" = Some two_scores ∧
     Span.attributes obj' !! "vendor@retrieved_contexts"
       = Some three_contexts) ∧
  (__get__ (H:=example_environment) retrieved_scores
     (Span__init__ (H:=example_environment) SpanRetriever
        uneven_kwargs)).1 = Return two_scores.
Proof.
  assert ("retrieved_scores"
            ∈ ["retrieved_contexts"; "retrieved_scores"; "retrieved_embeddings"])
    as Hattr by (repeat constructor).
  split; [exact Hattr|]. split; [reflexivity|]. split; [reflexivity|].
  destruct (retriever_fields_are_independent (H:=example_environment)
              "retrieved_scores" retrieved_scores retrieved_scores
              contexts_span (TList Tfloat) two_scores uneven_kwargs
              Hattr eq_refl (or_introl eq_refl) eq_refl)
    as (_ & Haccepted & _ & Hconstructed).
  split; [|exact Hconstructed].
  destruct (Haccepted eq_refl)
    as (p' & obj' & Hset & Hstored & Hframe & _).
  exists p', obj'. split; [exact Hset|]. split; [exact Hstored|].
  exact (eq_trans (Hframe "vendor@retrieved_contexts" ltac:(discriminate))
           eq_refl).
Defined.

(** C8, as the specification has it, fails: on a fresh retriever span, writing
    three contexts and then two scores raises nothing, and the two fields
    then read back with lengths three and two. *)
Lemma retriever_lengths_may_differ :
  ∃ p1 obj1 p2 obj2,
    __set__ (H:=example_environment) retrieved_contexts
      (example_span SpanRetriever) three_contexts = (Return (), p1, obj1) ∧
    __set__ (H:=example_environment) retrieved_scores obj1 two_scores
      = (Return (), p2, obj2) ∧
    (__get__ (H:=example_environment) retrieved_contexts obj2).1
      = Return three_contexts ∧
    (__get__ (H:=example_environment) retrieved_scores obj2).1
      = Return two_scores ∧
    len three_contexts = Some 3%nat ∧
    len two_scores = Some 2%nat.
Proof.
  eexists _, _, _, _.
  split; [reflexivity|]. split; [reflexivity|].
  split; [reflexivity|]. split; [reflexivity|]. split; reflexivity.
Qed.

(** * Further properties of the module *)

Section more_properties.
Context `{!Environment}.
Context {interpreter : Interpreter}.

Hypothesis validate_tags_default :
  validate_python (TList Tstr) (VList []) = true.
Hypothesis validate_span_type_default :
  validate_python TSpanType (VEnum UNTYPED) = true.

(** ** Descriptors *)

Lemma descriptor_state_name p0 p :
  default_accepted p0 → descriptor_state p0 p →
  AttributeProperty.name p = AttributeProperty.name p0.
Proof.
  intros (Hfresh & t & Ht & Hd) [->| ->]; [done|].
  by rewrite (init_forward_declared p0 t Hfresh Ht Hd).
Qed.

Lemma init_forward_rejected p t :
  AttributeProperty.forward_initialized p = false →
  declared_type p = Some t →
  is_None (declared_default p) = false →
  validate_python t (declared_default p) = false →
  init_forward p =
    (Raise (ValidationError t (declared_default p)),
     AttributeProperty.mk (AttributeProperty.name p) (Some t)
       (AttributeProperty.typ_factory p) (declared_default p)
       (AttributeProperty.default_factory p) true (Some t)).
Proof.
  destruct p as [n ty tf d df fi ta]; simpl.
  unfold declared_type, declared_default, init_forward; simpl.
  intros -> Ht Hnone Hd.
  destruct ty as [ty|], tf as [tf|], df as [df|], d; simpl in *;
    simplify_eq; simpl in *;
    try (destruct (is_None (df ())) eqn:Hnone'; simpl in * );
    simplify_eq; simpl in *;
    rewrite ?Hd, ?Hnone, ?Hnone', ?Hd; done.
Qed.

(** X1. Deleting a typed field removes its key: a field whose key is
    absent cannot be deleted ([KeyError], span unchanged); a field whose
    key is present is deleted, reads as its declared default afterwards,
    and no other attribute and no link changes. *)
Theorem delete_restores_default cls attr p0 p obj :
  (attr, p0) ∈ attribute_properties cls →
  descriptor_state p0 p →
  match Span.attributes obj !! vendor_attr (AttributeProperty.name p0) with
  | None => __delete__ p obj = (Raise KeyError, obj)
  | Some _ =>
      ∃ obj',
        __delete__ p obj = (Return (), obj') ∧
        (__get__ p obj').1 = Return (declared_default p0) ∧
        (∀ k, k ≠ vendor_attr (AttributeProperty.name p0) →
              Span.attributes obj' !! k = Span.attributes obj !! k) ∧
        Span.links obj' = Span.links obj
  end.
Proof.
  intros Hin Hp.
  pose proof (declared_default_accepted validate_tags_default
                validate_span_type_default _ _ _ Hin) as Hp0.
  unfold __delete__. rewrite (descriptor_state_name p0 p Hp0 Hp).
  destruct (Span.attributes obj !! vendor_attr (AttributeProperty.name p0))
    as [v|] eqn:Hv; [|done].
  eexists. split; [reflexivity|]. split; [|split; [|done]].
  - rewrite (get_declared p0 p _ Hp0 Hp). simpl. by rewrite lookup_delete_eq.
  - intros k Hk. simpl. by apply lookup_delete_ne.
Qed.

(** X2. A property whose default is rejected by its own type reports it
    on the first access only: the first read raises the validation error
    of the default, the first write raises it too (whatever the value
    written) and stores nothing, and a read through the descriptor left
    by the failed access returns the stored value or the default. *)
Theorem rejected_default_raises_once p obj t :
  AttributeProperty.forward_initialized p = false →
  declared_type p = Some t →
  is_None (declared_default p) = false →
  validate_python t (declared_default p) = false →
  (__get__ p obj).1 = Raise (ValidationError t (declared_default p)) ∧
  (∀ v, (__set__ p obj v).1.1 = Raise (ValidationError t (declared_default p))
        ∧ (__set__ p obj v).2 = obj) ∧
  (__get__ (__get__ p obj).2 obj).1 =
    Return (match Span.attributes obj !! vendor_attr (AttributeProperty.name p)
            with
            | Some v => v
            | None => declared_default p
            end).
Proof.
  intros Hfresh Ht Hnone Hd.
  pose proof (init_forward_rejected p t Hfresh Ht Hnone Hd) as Hinit.
  unfold __get__, __set__. rewrite Hinit. simpl.
  split; [done|]. split; [done|]. done.
Qed.

(** X3. A property declared without a type, without a type factory and
    without a default is not validated: every value is stored, and read
    back as it was written. *)
Theorem untyped_property_is_not_validated p obj v :
  AttributeProperty.forward_initialized p = false →
  declared_type p = None →
  ∃ p' obj',
    __set__ p obj v = (Return (), p', obj') ∧
    (__get__ p' obj').1 = Return v.
Proof.
  destruct p as [n ty tf d df fi ta]; simpl.
  unfold declared_type, declared_default; simpl. intros -> Ht.
  assert (init_forward (AttributeProperty.mk n ty tf d df false ta) =
          (Return (),
           AttributeProperty.mk n None None
             (match df with Some f => f () | None => VNone end) df true None))
    as Hinit.
  { unfold init_forward; simpl.
    destruct ty as [ty|], tf as [tf|], df as [df|], d; simpl in *;
      simplify_eq; simpl in *;
      try (destruct (is_None (df ())) eqn:Hnone; simpl in * );
      simplify_eq; simpl in *; rewrite ?Hnone; done. }
  unfold __set__. rewrite Hinit. simpl. eexists _, _. split; [reflexivity|].
  unfold __get__. rewrite init_forward_again by done. simpl.
  by rewrite lookup_insert_eq.
Qed.

Lemma attribute_properties_schema cls :
  NoDup (attribute_properties cls).*1 ∧
  Forall (λ ap, AttributeProperty.name ap.2 = ap.1) (attribute_properties cls).
Proof. destruct cls; split; compute_done. Qed.

Lemma attribute_property_name cls attr p0 :
  (attr, p0) ∈ attribute_properties cls → AttributeProperty.name p0 = attr.
Proof.
  intros Hin. destruct (attribute_properties_schema cls) as [_ Hnames].
  rewrite Forall_forall in Hnames. exact (Hnames _ Hin).
Qed.

(** X4. The typed fields of a class do not interfere: whatever a write to
    one field does (store the value or raise), every other field of the
    class, own or inherited, reads afterwards what it read before, and
    the links and the metadata of the span are untouched. *)
Theorem typed_fields_do_not_interfere cls a1 p1 a2 p2 p q obj v :
  (a1, p1) ∈ attribute_properties cls →
  (a2, p2) ∈ attribute_properties cls →
  a1 ≠ a2 →
  descriptor_state p1 p →
  descriptor_state p2 q →
  (__get__ q (__set__ p obj v).2).1 = (__get__ q obj).1 ∧
  Span.links (__set__ p obj v).2 = Span.links obj ∧
  Span.attributes_metadata (__set__ p obj v).2 = Span.attributes_metadata obj.
Proof.
  intros Hin1 Hin2 Hne Hp Hq.
  pose proof (declared_default_accepted validate_tags_default
                validate_span_type_default _ _ _ Hin1) as Hp1.
  pose proof (declared_default_accepted validate_tags_default
                validate_span_type_default _ _ _ Hin2) as Hp2.
  destruct Hp1 as (Hfresh & t & Ht & Hd).
  destruct (set_declared p1 p obj t v) as (p' & _ & Hset);
    [by split; eauto|done|done|].
  rewrite Hset, !(get_declared p2 q _ Hp2 Hq).
  rewrite (attribute_property_name _ _ _ Hin1),
    (attribute_property_name _ _ _ Hin2).
  destruct (validate_python t v); simpl; [|done].
  split; [|done]. rewrite lookup_insert_ne; [done|].
  intros Heq. apply (inj (String.app _)) in Heq. done.
Qed.

(** X5. An annotation decides the type: once [__set_name__] has bound a
    fresh property to an annotated attribute, the annotation is gone from
    the class and writes are validated against the annotated type,
    whatever type or type factory the property was constructed with. *)
Theorem annotation_decides_the_type p annotations attr t obj v :
  AttributeProperty.forward_initialized p = false →
  annotations !! attr = Some t →
  is_None (declared_default p) = true ∨
    validate_python t (declared_default p) = true →
  (__set_name__ p annotations attr).2 !! attr = None ∧
  (∀ other, other ≠ attr →
     (__set_name__ p annotations attr).2 !! other = annotations !! other) ∧
  ∃ p',
    __set__ (__set_name__ p annotations attr).1 obj v =
      if validate_python t v
      then (Return (), p',
            Span.with_attributes
              (<[vendor_attr (AttributeProperty.name p) := v]>
                 (Span.attributes obj)) obj)
      else (Raise (ValidationError t v), p', obj).
Proof.
  intros Hfresh Hann Hd. unfold __set_name__. rewrite Hann. simpl.
  split; [apply lookup_delete_eq|].
  split; [intros other Hother; by apply lookup_delete_ne|].
  set (p1 := AttributeProperty.with_tadapter (Some t)
               (AttributeProperty.with_typ (Some t) p)).
  assert (declared_default p1 = declared_default p) as Hdefault by done.
  destruct (set_declared p1 p1 obj t v) as (p' & _ & Hset);
    [ split; [done|]; exists t; split; [done|by rewrite Hdefault]
    | by left | done | ].
  exists p'. exact Hset.
Qed.

(** ** Construction *)

(** X6. What the typed fields of a newly constructed span read: the
    field [span_type] reads the name of the class of the span, never its
    declared default and never what the caller passed; every other field
    reads the attribute the caller passed under its key, unvalidated, or
    its declared default when the caller passed none. *)
Theorem constructed_span_reads cls kwargs attr p0 p :
  (attr, p0) ∈ attribute_properties cls →
  descriptor_state p0 p →
  (__get__ p (Span__init__ cls kwargs)).1 =
    Return (if decide (attr = "span_type") then VStr (__name__ cls)
            else match Kwargs.attributes kwargs !! vendor_attr attr with
                 | Some v => v
                 | None => declared_default p0
                 end).
Proof.
  intros Hin Hp.
  pose proof (declared_default_accepted validate_tags_default
                validate_span_type_default _ _ _ Hin) as Hp0.
  rewrite (get_declared p0 p _ Hp0 Hp), (attribute_property_name _ _ _ Hin).
  unfold Span__init__, set_attribute. simpl.
  destruct (decide (attr = "span_type")) as [->|Hne].
  - by rewrite lookup_insert_eq.
  - rewrite lookup_insert_ne; [done|].
    intros Heq. apply (inj (String.app _)) in Heq. done.
Qed.

(** ** Metadata *)

Lemma foldl_insert_union (d m : gmap string pyval) :
  foldl (λ m kv, <[kv.1 := kv.2]> m) m (map_to_list d) = d ∪ m.
Proof.
  apply map_eq. intros k. rewrite lookup_union.
  destruct (d !! k) as [v|] eqn:Hk.
  - rewrite (foldl_insert_elem id _ _ k v);
      [by destruct (m !! k)|apply NoDup_fst_map_to_list|].
    by apply elem_of_map_to_list.
  - rewrite (foldl_insert_other id); [by destruct (m !! k)|].
    intros [k' v'] Hin%elem_of_map_to_list Heq. simpl in Heq. congruence.
Qed.

Lemma foldl_insert_twice (f : string → string) `{!Inj (=) (=) f}
    (l : list (string * pyval)) (m : gmap string pyval) :
  NoDup l.*1 →
  foldl (λ m kv, <[f kv.1 := kv.2]> m)
    (foldl (λ m kv, <[f kv.1 := kv.2]> m) m l) l
  = foldl (λ m kv, <[f kv.1 := kv.2]> m) m l.
Proof.
  intros Hnodup. apply map_eq. intros a.
  destruct (decide (a ∈ (λ kv : string * pyval, f kv.1) <$> l)) as [Hin|Hout].
  - apply list_elem_of_fmap in Hin as ([k v] & -> & Hin). simpl.
    by rewrite !(foldl_insert_elem f _ _ k v).
  - rewrite !(foldl_insert_other f); [done| |];
      intros kv Hkv Heq; apply Hout; rewrite <- Heq;
      by apply (list_elem_of_fmap_2 (λ kv : string * pyval, f kv.1)).
Qed.

(** X7. Assigning a dictionary to the metadata of a span is a union that
    the new entries win: the metadata afterwards is [d] over the metadata
    before. Assigning the same dictionary a second time changes nothing
    in the span, and assigning the empty dictionary changes nothing. *)
Theorem metadata_assignment_is_union self d :
  DictNamespace.entries (metadata (metadata_setter self d))
    = d ∪ DictNamespace.entries (metadata self) ∧
  metadata_setter (metadata_setter self d) d = metadata_setter self d ∧
  metadata_setter self ∅ = self.
Proof.
  split; [|split].
  - unfold metadata_setter, metadata. rewrite metadata_setter_fold. cbv zeta.
    destruct (DictNamespace.parent (Span.attributes_metadata self)); simpl;
      apply foldl_insert_union.
  - unfold metadata_setter.
    pose proof (NoDup_fst_map_to_list d) as Hnodup.
    rewrite (metadata_setter_fold _ self). cbv zeta.
    destruct self as [cls ctx t0 t1 a ls [par ns e]]. simpl.
    pose proof (namespace_key_inj ns) as Hinj.
    destruct par as [|det]; rewrite metadata_setter_fold; simpl;
      unfold Span.with_attributes_metadata, Span.with_attributes; simpl;
      rewrite (foldl_insert_twice id) by done;
      rewrite (foldl_insert_twice (namespace_key ns)) by done; done.
  - unfold metadata_setter. by rewrite map_to_list_empty.
Qed.

Lemma string_app_assoc (s1 s2 s3 : string) :
  (s1 +:+ s2) +:+ s3 = s1 +:+ s2 +:+ s3.
Proof.
  induction s1 as [|a s1 IH]; [done|].
  change (String a ((s1 +:+ s2) +:+ s3) = String a (s1 +:+ s2 +:+ s3)).
  by rewrite IH.
Qed.

Lemma attribute_not_in_metadata cls attr p0 (x : string) :
  (attr, p0) ∈ attribute_properties cls → "metadata" +:+ x ≠ attr.
Proof.
  intros Hin Heq.
  destruct cls; unfold attribute_properties, mro in Hin; simpl in Hin;
    repeat (apply elem_of_cons in Hin as [Hin|Hin];
            [by simplify_eq/=|]);
    by apply elem_of_nil in Hin.
Qed.

(** X8. On a span whose metadata namespace is the one the constructor
    installs, assigning metadata changes no typed field: every field of
    the class reads afterwards what it read before. *)
Theorem metadata_leaves_typed_fields cls attr p0 p self d :
  (attr, p0) ∈ attribute_properties cls →
  descriptor_state p0 p →
  DictNamespace.namespace (Span.attributes_metadata self)
    = vendor_attr "metadata" →
  (__get__ p (metadata_setter self d)).1 = (__get__ p self).1.
Proof.
  intros Hin Hp Hns.
  pose proof (declared_default_accepted validate_tags_default
                validate_span_type_default _ _ _ Hin) as Hp0.
  rewrite !(get_declared p0 p _ Hp0 Hp), (attribute_property_name _ _ _ Hin).
  unfold metadata_setter. rewrite metadata_setter_fold. cbv zeta.
  destruct (DictNamespace.parent (Span.attributes_metadata self)); simpl;
    [|done].
  rewrite foldl_insert_other; [done|].
  intros kv _ Heq. rewrite Hns in Heq.
  unfold namespace_key, vendor_attr in Heq.
  rewrite string_app_assoc in Heq. apply (inj (String.app _)) in Heq.
  by apply (attribute_not_in_metadata _ _ _ _ Hin) in Heq.
Qed.

(** ** Parent links, on any span *)

Section more_link_lists.
Implicit Types l : list (SpanContext.t * gmap string pyval).
Implicit Types c x : SpanContext.t.
Implicit Types a : gmap string pyval.

Lemma get_setitem_eq l c a : PyDict.get c (PyDict.setitem c a l) = Some a.
Proof.
  induction l as [|[k b] l IH]; simpl.
  - by rewrite decide_True.
  - destruct (decide (c = k)) as [->|Hne]; simpl.
    + by rewrite decide_True.
    + by rewrite decide_False.
Qed.

Lemma get_remove_ne l c x :
  x ≠ c → PyDict.get x (PyDict.remove c l) = PyDict.get x l.
Proof.
  intros Hne. unfold PyDict.remove.
  induction l as [|[k b] l IH]; [done|].
  destruct (decide (k = c)) as [->|Hk].
  - rewrite filter_cons_False by (simpl; tauto). simpl.
    by rewrite decide_False.
  - rewrite filter_cons_True by done. simpl. by rewrite IH.
Qed.

Lemma get_link_elem_of l c a : PyDict.get c l = Some a → (c, a) ∈ l.
Proof.
  induction l as [|[k b] l IH]; [done|]. simpl.
  destruct (decide (c = k)) as [->|_].
  - intros [= ->]. by left.
  - intros Hget. right. by apply IH.
Qed.

Lemma length_parents_setitem l c a :
  (List.length (filter (λ kv, is_parent kv.2 = true) (PyDict.setitem c a l))
   ≤ S (List.length (filter (λ kv, is_parent kv.2 = true) l)))%nat.
Proof.
  induction l as [|[k b] l IH]; simpl.
  - destruct (decide (is_parent a = true)).
    + rewrite filter_cons_True by done. simpl. lia.
    + rewrite filter_cons_False by done. simpl. lia.
  - destruct (decide (c = k)) as [->|Hne].
    + destruct (decide (is_parent a = true)), (decide (is_parent b = true));
        rewrite ?(filter_cons_True _ (k, a)), ?(filter_cons_False _ (k, a)),
          ?(filter_cons_True _ (k, b)), ?(filter_cons_False _ (k, b)) by done;
        simpl; lia.
    + destruct (decide (is_parent b = true)).
      * rewrite !(filter_cons_True _ (k, b)) by done. simpl. lia.
      * rewrite !(filter_cons_False _ (k, b)) by done. exact IH.
Qed.

Lemma length_parents_remove l c :
  (List.length (filter (λ kv, is_parent kv.2 = true) (PyDict.remove c l))
   ≤ List.length (filter (λ kv, is_parent kv.2 = true) l))%nat.
Proof.
  unfold PyDict.remove. induction l as [|[k b] l IH]; [done|].
  destruct (decide (k = c)) as [->|Hk].
  - rewrite (filter_cons_False (λ kv, kv.1 ≠ c)) by (simpl; tauto).
    destruct (decide (is_parent b = true)).
    + rewrite filter_cons_True by done. simpl. lia.
    + by rewrite filter_cons_False by done.
  - rewrite (filter_cons_True (λ kv, kv.1 ≠ c)) by done.
    destruct (decide (is_parent b = true)).
    + rewrite !(filter_cons_True _ (k, b)) by done. simpl. lia.
    + by rewrite !(filter_cons_False _ (k, b)) by done.
Qed.

Lemma length_parents_remove_first l c :
  first_parent l = Some c →
  (S (List.length (filter (λ kv, is_parent kv.2 = true) (PyDict.remove c l)))
   ≤ List.length (filter (λ kv, is_parent kv.2 = true) l))%nat.
Proof.
  induction l as [|[k b] l IH]; [done|]. cbn [first_parent].
  destruct (is_parent b) eqn:Hb.
  - intros [= ->]. rewrite filter_cons_True by done.
    unfold PyDict.remove.
    rewrite (filter_cons_False (λ kv, kv.1 ≠ c)) by (simpl; tauto).
    pose proof (length_parents_remove l c) as Hle.
    unfold PyDict.remove in Hle. simpl. lia.
  - intros Hc. specialize (IH Hc).
    rewrite filter_cons_False by (simpl; congruence).
    unfold PyDict.remove in *.
    destruct (decide (k = c)) as [->|Hk].
    + by rewrite (filter_cons_False (λ kv, kv.1 ≠ c)) by (simpl; tauto).
    + rewrite (filter_cons_True (λ kv, kv.1 ≠ c)) by done.
      by rewrite filter_cons_False by (simpl; congruence).
Qed.

End more_link_lists.

Lemma parent_context_setter_links self c :
  parent_context_setter self (Some c) =
    (Return (),
     Span.with_links
       (PyDict.setitem c {[ vendor_attr "relationship" := VStr "parent" ]}
          (match parent_context self with
           | Some existing => PyDict.remove existing (Span.links self)
           | None => Span.links self
           end))
       self).
Proof.
  unfold parent_context_setter.
  destruct (parent_context self) as [existing|] eqn:Hexisting; [|done].
  destruct (first_parent_key _ _ Hexisting) as [a Ha].
  unfold PyDict.items in Ha. unfold PyDict.delitem. by rewrite Ha.
Qed.

(** X9. Assigning a parent never raises, on any span: the removal of the
    previous parent link cannot miss its key. Afterwards the target is
    linked with the parent marker (a link it had before is overwritten),
    every link to a context other than the target and the previous
    parent is what it was, and the attributes and the context of the
    span are untouched. *)
Theorem parent_assignment_never_raises self c :
  ∃ self',
    parent_context_setter self (Some c) = (Return (), self') ∧
    PyDict.get c (Span.links self')
      = Some {[ vendor_attr "relationship" := VStr "parent" ]} ∧
    (∀ x, x ≠ c → parent_context self ≠ Some x →
          PyDict.get x (Span.links self') = PyDict.get x (Span.links self)) ∧
    Span.attributes self' = Span.attributes self ∧
    Span.context self' = Span.context self.
Proof.
  eexists. split; [apply parent_context_setter_links|]. simpl.
  split; [apply get_setitem_eq|]. split; [|done].
  intros x Hxc Hparent. rewrite get_setitem_ne by done.
  destruct (parent_context self) as [existing|]; [|done].
  apply get_remove_ne. congruence.
Qed.

(** X10. Assigning a parent leaves at least one parent link and never
    more than there were: on a span with [n] parent links the assignment
    leaves between one and [max 1 n] of them. *)
Theorem parent_assignment_bounds_parent_links self c :
  ∃ self',
    parent_context_setter self (Some c) = (Return (), self') ∧
    (1 ≤ List.length (parent_links self'))%nat ∧
    (List.length (parent_links self')
     ≤ Nat.max 1 (List.length (parent_links self)))%nat.
Proof.
  eexists. split; [apply parent_context_setter_links|].
  unfold parent_links. simpl. split.
  - pose proof (get_setitem_eq
      (match parent_context self with
       | Some existing => PyDict.remove existing (Span.links self)
       | None => Span.links self
       end) c {[ vendor_attr "relationship" := VStr "parent" ]}) as Hget.
    apply get_link_elem_of in Hget.
    assert ((c, {[ vendor_attr "relationship" := VStr "parent" ]})
              ∈ filter (λ kv : SpanContext.t * gmap string pyval,
                          is_parent kv.2 = true)
                  (PyDict.setitem c
                     {[ vendor_attr "relationship" := VStr "parent" ]}
                     (match parent_context self with
                      | Some existing =>
                          PyDict.remove existing (Span.links self)
                      | None => Span.links self
                      end))) as Hin.
    { apply list_elem_of_filter. split; [apply is_parent_marker|done]. }
    destruct (filter _ _); [by apply elem_of_nil in Hin|simpl; lia].
  - etrans; [apply length_parents_setitem|].
    destruct (parent_context self) as [existing|] eqn:Hexisting.
    + pose proof (length_parents_remove_first _ _ Hexisting) as Hle.
      unfold PyDict.items in Hle. lia.
    + unfold parent_context, PyDict.items in Hexisting.
      rewrite first_parent_head in Hexisting.
      destruct (filter _ (Span.links self)); [simpl; lia|done].
Qed.

(** X11. Linking a child to a span: on a child with at most one parent
    link, assigning the context of [parent] makes the parent span id of
    the child the span id of [parent], and leaves the child's own span id
    and trace id as they were. Nothing compares the two spans: the
    assignment is made whatever their traces are, and also for a span and
    itself. *)
Theorem linked_child_reads_parent_span_id child parent :
  (List.length (parent_links child) ≤ 1)%nat →
  ∃ child',
    parent_context_setter child (Some (Span.context parent))
      = (Return (), child') ∧
    parent_span_id child' = Some (span_id parent) ∧
    span_id child' = span_id child ∧
    trace_id child' = trace_id child.
Proof.
  intros Hlen.
  destruct (parent_context_setter_assigns child (Span.context parent) Hlen)
    as (child' & Hset & _ & Hparent & _).
  exists child'. split; [exact Hset|].
  split; [unfold parent_span_id; by rewrite Hparent|].
  rewrite parent_context_setter_links in Hset. by simplify_eq.
Qed.

(** ** The taxonomy and the hierarchy *)

(** X12. The members of [SpanType] and the classes: distinct members
    resolve to distinct classes; the classes with a member are all the
    classes of the hierarchy but the four bases [Span], [TransSpanRecord],
    [SpanMethodCall] and [TransSpanRecordAppCall]; and a value resolves
    to a class under the name of the class only, or under the alias
    [SpanTyped]. *)
Theorem span_type_taxonomy :
  (∀ m1 m2, to_class m1 = to_class m2 → m1 = m2) ∧
  (∀ cls, (∃ m, to_class m = Return (Class cls)) ↔
          cls ∉ [Span; TransSpanRecord; SpanMethodCall; TransSpanRecordAppCall]) ∧
  (∀ v cls, to_class_of_value v = Return (Class cls) →
            v = __name__ cls ∨ (v = "SpanTyped" ∧ cls = TransSpanRecordAppCall)).
Proof.
  split; [|split].
  - intros [] [] Heq; vm_compute in Heq; by simplify_eq.
  - intros cls. split.
    + intros [m Hm].
      destruct m, cls; vm_compute in Hm; simplify_eq; compute_done.
    + intros Hcls.
      destruct cls;
        try (exfalso; apply Hcls; compute_done);
        first [ by exists UNTYPED | by exists ROOT | by exists RETRIEVER
              | by exists RERANKER | by exists LLM | by exists MEMORY
              | by exists EMBEDDING | by exists TOOL | by exists AGENT
              | by exists TASK | by exists OTHER ].
  - intros v cls. apply to_class_of_value_class.
Qed.

Lemma get_app_r {V} (k : string) (v : V) (l1 l2 : list (string * V)) :
  NoDup ((l1 ++ l2)%list).*1 → PyDict.get k l2 = Some v →
  PyDict.get k (l1 ++ l2)%list = Some v.
Proof.
  intros Hnodup Hget. induction l1 as [|[k' v'] l1 IH]; [done|].
  simpl in Hnodup. apply NoDup_cons in Hnodup as [Hfresh Hnodup]. simpl.
  destruct (decide (k = k')) as [<-|_]; [|by apply IH].
  destruct Hfresh. rewrite fmap_app. apply elem_of_app. right.
  apply get_elem_of in Hget.
  by apply (list_elem_of_fmap_2 fst) in Hget.
Qed.

(** X13. A class has every typed field of its base, with the descriptor
    of the base: no class of the module overrides an inherited property.
    In particular every class has the fields [tags] and [span_type] as
    [Span] declares them. *)
Theorem inherited_properties_are_kept cls b attr p :
  base cls = Some b →
  class_getattr b attr = Some p →
  class_getattr cls attr = Some p ∧
  class_getattr cls "tags" = class_getattr Span "tags" ∧
  class_getattr cls "span_type" = class_getattr Span "span_type".
Proof.
  intros Hbase Hget. split; [|by destruct cls].
  unfold class_getattr in *.
  assert (attribute_properties cls
          = (class_body cls ++ attribute_properties b)%list)
    as Hsplit.
  { by destruct cls; simplify_eq/=. }
  rewrite Hsplit. apply get_app_r; [|done]. rewrite <- Hsplit.
  apply attribute_properties_schema.
Qed.

End more_properties.

(** ** The further properties at concrete spans *)

Lemma delete_restores_default_witness :
  ("retrieved_scores", retrieved_scores) ∈ attribute_properties SpanRetriever ∧
  Span.attributes scored_span !! "vendor@retrieved_scores" = Some two_scores ∧
  ∃ obj',
    __delete__ (H:=example_environment) retrieved_scores scored_span
      = (Return (), obj') ∧
    (__get__ (H:=example_environment) retrieved_scores obj').1 = Return VNone.
Proof.
  assert (("retrieved_scores", retrieved_scores)
            ∈ attribute_properties SpanRetriever) as Hin.
  { unfold attribute_properties, mro. simpl. repeat constructor. }
  split; [exact Hin|]. split; [reflexivity|].
  pose proof (delete_restores_default (H:=example_environment)
    eq_refl eq_refl SpanRetriever "retrieved_scores" retrieved_scores
    retrieved_scores scored_span Hin (or_introl eq_refl)) as Hdelete.
  assert (Span.attributes scored_span
            !! vendor_attr (H:=example_environment)
                 (AttributeProperty.name retrieved_scores)
          = Some two_scores) as Hstored by reflexivity.
  rewrite Hstored in Hdelete.
  destruct Hdelete as (obj' & Hdel & Hget & _).
  exists obj'. split; [exact Hdel|exact Hget].
Defined.

Lemma rejected_default_raises_once_witness :
  declared_type miscounted = Some Tint ∧
  conforms Tint (declared_default miscounted) = false ∧
  (__get__ (H:=example_environment) miscounted (example_span SpanLLM)).1
    = Raise (ValidationError Tint (VStr "many")) ∧
  (__get__ (H:=example_environment)
     (__get__ (H:=example_environment) miscounted (example_span SpanLLM)).2
     (example_span SpanLLM)).1
    = Return (VStr "many").
Proof.
  destruct (rejected_default_raises_once (H:=example_environment) miscounted
              (example_span SpanLLM) Tint eq_refl eq_refl eq_refl eq_refl)
    as (Hfirst & _ & Hsecond).
  split; [reflexivity|]. split; [reflexivity|].
  split; [exact Hfirst|exact Hsecond].
Defined.

Lemma untyped_property_is_not_validated_witness :
  declared_type note = None ∧
  ∃ p' obj',
    __set__ (H:=example_environment) note (example_span SpanLLM)
      (VList [VInt 3; VStr "three"]) = (Return (), p', obj') ∧
    (__get__ (H:=example_environment) p' obj').1
      = Return (VList [VInt 3; VStr "three"]).
Proof.
  split; [reflexivity|].
  apply (untyped_property_is_not_validated (H:=example_environment) note
           (example_span SpanLLM) (VList [VInt 3; VStr "three"])
           eq_refl eq_refl).
Defined.

Lemma typed_fields_do_not_interfere_witness :
  (__get__ (H:=example_environment) retrieved_scores
     (__set__ (H:=example_environment) retrieved_contexts scored_span
        three_contexts).2).1
    = Return two_scores.
Proof.
  assert (("retrieved_contexts", retrieved_contexts)
            ∈ attribute_properties SpanRetriever) as Hin1.
  { unfold attribute_properties, mro. simpl. repeat constructor. }
  assert (("retrieved_scores", retrieved_scores)
            ∈ attribute_properties SpanRetriever) as Hin2.
  { unfold attribute_properties, mro. simpl. repeat constructor. }
  destruct (typed_fields_do_not_interfere (H:=example_environment)
              eq_refl eq_refl SpanRetriever
              "retrieved_contexts" retrieved_contexts
              "retrieved_scores" retrieved_scores
              retrieved_contexts retrieved_scores scored_span three_contexts
              Hin1 Hin2 ltac:(discriminate)
              (or_introl eq_refl) (or_introl eq_refl))
    as (Hget & _).
  exact (eq_trans Hget eq_refl).
Defined.

Lemma annotation_decides_the_type_witness :
  declared_type relabelled = Some Tstr ∧
  ∃ p',
    __set__ (H:=example_environment)
      (__set_name__ relabelled top_n_annotated "top_n").1
      (example_span SpanReranker) (VStr "three")
    = (Raise (ValidationError Tint (VStr "three")), p',
       example_span SpanReranker).
Proof.
  split; [reflexivity|].
  destruct (annotation_decides_the_type (H:=example_environment) relabelled
              top_n_annotated "top_n" Tint (example_span SpanReranker)
              (VStr "three") eq_refl eq_refl (or_introl eq_refl))
    as (_ & _ & p' & Hset).
  exists p'. exact Hset.
Defined.

Lemma constructed_span_reads_witness :
  (__get__ (H:=example_environment) span_type_property
     (example_span SpanUntyped)).1 = Return (VStr "SpanUntyped") ∧
  (__get__ (H:=example_environment) temperature_property
     (example_span SpanLLM)).1 = Return VNone.
Proof.
  assert (("span_type", span_type_property)
            ∈ attribute_properties SpanUntyped) as Hin1.
  { unfold attribute_properties, mro. simpl. repeat constructor. }
  assert (("temperature", temperature_property)
            ∈ attribute_properties SpanLLM) as Hin2.
  { unfold attribute_properties, mro. simpl. repeat constructor. }
  split.
  - exact (constructed_span_reads (H:=example_environment) eq_refl eq_refl
             SpanUntyped example_kwargs "span_type" span_type_property
             span_type_property Hin1 (or_introl eq_refl)).
  - exact (constructed_span_reads (H:=example_environment) eq_refl eq_refl
             SpanLLM example_kwargs "temperature" temperature_property
             temperature_property Hin2 (or_introl eq_refl)).
Defined.

Lemma metadata_leaves_typed_fields_witness :
  DictNamespace.namespace (Span.attributes_metadata (example_span SpanLLM))
    = "vendor@metadata" ∧
  (__get__ (H:=example_environment) temperature_property
     (metadata_setter (H:=example_environment) (example_span SpanLLM)
        {[ "temperature" := VStr "hot" ]})).1 = Return VNone.
Proof.
  assert (("temperature", temperature_property)
            ∈ attribute_properties SpanLLM) as Hin.
  { unfold attribute_properties, mro. simpl. repeat constructor. }
  split; [reflexivity|].
  exact (eq_trans
    (metadata_leaves_typed_fields (H:=example_environment) eq_refl eq_refl
       SpanLLM "temperature" temperature_property temperature_property
       (example_span SpanLLM) {[ "temperature" := VStr "hot" ]}
       Hin (or_introl eq_refl) eq_refl)
    eq_refl).
Defined.

Lemma linked_child_reads_parent_span_id_witness :
  (List.length (parent_links (H:=example_environment)
                  (example_span SpanLLM)) ≤ 1)%nat ∧
  ∃ child',
    parent_context_setter (H:=example_environment) (example_span SpanLLM)
      (Some (Span.context example_root)) = (Return (), child') ∧
    parent_span_id (H:=example_environment) child' = Some 9%Z ∧
    span_id child' = 1%Z.
Proof.
  assert ((List.length (parent_links (H:=example_environment)
                          (example_span SpanLLM)) ≤ 1)%nat) as Hlen.
  { vm_compute. repeat constructor. }
  split; [exact Hlen|].
  destruct (linked_child_reads_parent_span_id (H:=example_environment)
              (example_span SpanLLM) example_root Hlen)
    as (child' & Hset & Hparent & Hid & _).
  exists child'. split; [exact Hset|]. split; [exact Hparent|exact Hid].
Defined.

Lemma inherited_properties_are_kept_witness :
  base SpanLLM = Some SpanTyped ∧
  class_getattr SpanLLM "record_id"
    = Some (attribute_property "record_id" (Some Tstr) None VNone None).
Proof.
  split; [reflexivity|].
  apply (inherited_properties_are_kept SpanLLM SpanTyped "record_id"
           (attribute_property "record_id" (Some Tstr) None VNone None)
           eq_refl eq_refl).
Defined.
